(** * darwin-py: the request mediator, the client facade and release parsing

    A shallow embedding of [darwin/client.py] and [darwin/dataset/release.py].
    Python values decoded from JSON are a small inductive type, a raised
    exception is the [Raise] branch of a result, and the side effects of the
    mediator (handler calls, debug prints, closing a response) are collected
    in an event log next to the result. *)

From Stdlib Require Import ZArith String Ascii List Bool Floats Lia.
From stdpp Require Import gmap strings list fin_maps pretty.

#[local] Set Warnings "-register-all".
#[local] Open Scope Z_scope.

(** ** Python values *)

(** The values the code handles: what [response.json()] can return, plus the
    strings, flags and [None] the code passes around itself.  A [str] is a
    sequence of characters, one [ascii] each. *)
Inductive value :=
| VNone
| VBool (b : bool)
| VInt (z : Z)
| VFloat (f : float)
| VStr (s : string)
| VList (l : list value)
| VDict (d : gmap string value).

(** Modelled from the spec: the identifier class of [darwin.dataset.identifier],
    a parsed triple of team slug (optional), dataset slug and version
    (optional); [None] stands for an absent part. *)
Record DatasetIdentifier := mkDatasetIdentifier {
  di_team_slug : value;
  di_dataset_slug : value;
  di_version : value
}.

(** What a [NotFound] carries: a URL on the mediator's path, an identifier on
    the facade's. *)
Inductive resource :=
| ResUrl (u : string)
| ResIdentifier (d : DatasetIdentifier).

Inductive exn :=
| Unauthorized
| NotFound (what : resource)
| InsufficientStorage
| InvalidLogin
| MissingConfig
| NameTaken
| ValidationError (body : value)
| KeyError (key : string)
| TypeError
| ValueError
| IndexError
| External (name : string).

Inductive result (A : Type) :=
| Ok (a : A)
| Raise (e : exn).
Arguments Ok {A} a.
Arguments Raise {A} e.

#[export] Instance result_ret : MRet result := fun _ a => Ok a.
#[export] Instance result_bind : MBind result := fun _ _ f m =>
  match m with
  | Ok a => f a
  | Raise e => Raise e
  end.

(** The five error kinds of [darwin.exceptions] that the client imports. *)
Definition named_kind (e : exn) : bool :=
  match e with
  | Unauthorized | NotFound _ | InsufficientStorage | InvalidLogin | MissingConfig => true
  | _ => false
  end.

Module Py.

(** [bool(v)] *)
Definition truthy (v : value) : bool :=
  match v with
  | VNone => false
  | VBool b => b
  | VInt z => negb (z =? 0)
  | VFloat f => negb (PrimFloat.eqb f 0%float)
  | VStr s => negb (String.eqb s EmptyString)
  | VList l => match l with [] => false | _ => true end
  | VDict d => negb (Nat.eqb (size d) 0)
  end.

(** [a or b] *)
Definition or_ (a b : value) : value := if truthy a then a else b.

(** [v is None] *)
Definition is_None (v : value) : bool :=
  match v with VNone => true | _ => false end.

(** A float compared with an integer: Python compares the exact values. *)
Definition float_eq_int (f : float) (z : Z) : bool :=
  match Prim2SF f with
  | S754_zero _ => z =? 0
  | S754_finite s m e =>
      let n := if s then Z.neg m else Z.pos m in
      if 0 <=? e then z =? n * 2 ^ e
      else (n mod 2 ^ (- e) =? 0) && (z =? n / 2 ^ (- e))
  | S754_infinity _ => false
  | S754_nan => false
  end.

(** [a == b].  [bool] is a subclass of [int], numbers compare by value
    across [bool], [int] and [float], containers compare element-wise,
    dictionaries key by key. *)
Fixpoint equal (a b : value) : bool :=
  match a, b with
  | VNone, VNone => true
  | VBool x, VBool y => Bool.eqb x y
  | VBool x, VInt y => Z.b2z x =? y
  | VInt x, VBool y => x =? Z.b2z y
  | VInt x, VInt y => x =? y
  | VBool x, VFloat g => float_eq_int g (Z.b2z x)
  | VFloat f, VBool y => float_eq_int f (Z.b2z y)
  | VInt x, VFloat g => float_eq_int g x
  | VFloat f, VInt y => float_eq_int f y
  | VFloat f, VFloat g => PrimFloat.eqb f g
  | VStr s, VStr t => String.eqb s t
  | VList l, VList m =>
      (fix all2 (l m : list value) : bool :=
         match l, m with
         | [], [] => true
         | x :: l', y :: m' => equal x y && all2 l' m'
         | _, _ => false
         end) l m
  | VDict d, VDict e =>
      Nat.eqb (size d) (size e) &&
      map_fold (fun k x acc =>
                  match e !! k with
                  | Some y => equal x y && acc
                  | None => false
                  end) true d
  | _, _ => false
  end.

(** [v[key]] for a string key: only a dictionary can be indexed by one. *)
Definition getitem (v : value) (key : string) : result value :=
  match v with
  | VDict d =>
      match d !! key with
      | Some x => Ok x
      | None => Raise (KeyError key)
      end
  | _ => Raise TypeError
  end.

(** [len(v)] *)
Definition len (v : value) : result value :=
  match v with
  | VStr s => Ok (VInt (Z.of_nat (String.length s)))
  | VList l => Ok (VInt (Z.of_nat (length l)))
  | VDict d => Ok (VInt (Z.of_nat (size d)))
  | _ => Raise TypeError
  end.

(** The items a [for] loop over [v] visits: the elements of a list, the
    keys of a dictionary (in the order the map lists them), the characters
    of a string. *)
Definition iter (v : value) : result (list value) :=
  match v with
  | VList l => Ok l
  | VDict d => Ok ((fun kv => VStr (fst kv)) <$> map_to_list d)
  | VStr s => Ok ((fun c => VStr (String c EmptyString)) <$> list_ascii_of_string s)
  | _ => Raise TypeError
  end.

(** [seq[0]] on a list built by a comprehension. *)
Definition first {A} (l : list A) : result A :=
  match l with
  | x :: _ => Ok x
  | [] => Raise IndexError
  end.

Section Format.
(** [repr_other] is the text Python prints for a float or a container. *)
Variable repr_other : value -> string.

(** [str(v)], which is what a plain [{v}] in an f-string inserts. *)
Definition str (v : value) : string :=
  match v with
  | VNone => "None"
  | VBool true => "True"
  | VBool false => "False"
  | VInt z => pretty z
  | VStr s => s
  | _ => repr_other v
  end.
End Format.

End Py.

(** ** [darwin/dataset/release.py] *)

Module Release.

Section Release.
(** The standard library's [datetime]: the type of a parsed timestamp and
    [datetime.datetime.strptime], [None] where it raises [ValueError]. *)
Variable datetime : Type.
Variable strptime : string -> string -> option datetime.
Variable repr_other : value -> string.
(** The constructor of [DatasetIdentifier], called on one string. *)
Variable new_identifier : string -> DatasetIdentifier.

Record Release := mkRelease {
  dataset_slug : value;
  team_slug : value;
  version : value;
  url : value;
  export_date : datetime;
  image_count : value;
  class_count : value;
  available : value;
  latest : value
}.

(** Binding a parameter that has no default: a call that does not supply
    it raises [TypeError]. *)
Definition required {A} (arg : option A) : result A :=
  match arg with
  | Some a => Ok a
  | None => Raise TypeError
  end.

(** [Release.__init__]: nine parameters, none with a default.  An argument
    is [Some] when the call supplies it. *)
Definition __init__
    (dataset_slug team_slug version url : option value)
    (export_date : option datetime)
    (image_count class_count available latest : option value)
  : result Release :=
  dataset_slug ← required dataset_slug;
  team_slug ← required team_slug;
  version ← required version;
  url ← required url;
  export_date ← required export_date;
  image_count ← required image_count;
  class_count ← required class_count;
  available ← required available;
  latest ← required latest;
  Ok (mkRelease dataset_slug team_slug version url export_date
                image_count class_count available latest).

(** [datetime.datetime.strptime(v, fmt)] on a value: a [TypeError] unless
    [v] is a string, a [ValueError] when it does not match [fmt]. *)
Definition call_strptime (v : value) (fmt : string) : result datetime :=
  match v with
  | VStr s =>
      match strptime s fmt with
      | Some d => Ok d
      | None => Raise ValueError
      end
  | _ => Raise TypeError
  end.

(** [Release.parse_json].  The keyword arguments are evaluated in the
    order the call writes them; the first call passes no [url]. *)
Definition parse_json (dataset_slug team_slug payload : value) : result Release :=
  inserted_at ← Py.getitem payload "inserted_at";
  export_date ← call_strptime inserted_at "%Y-%m-%dT%H:%M:%S%z";
  download_url ← Py.getitem payload "download_url";
  if Py.is_None download_url then
    version ← Py.getitem payload "version";
    __init__ (Some dataset_slug) (Some team_slug) (Some version)
             None
             (Some export_date)
             (Some VNone) (Some VNone)
             (Some (VBool false)) (Some (VBool false))
  else
    version ← Py.getitem payload "name";
    metadata ← Py.getitem payload "metadata";
    image_count ← Py.getitem metadata "num_images";
    metadata ← Py.getitem payload "metadata";
    annotation_classes ← Py.getitem metadata "annotation_classes";
    class_count ← Py.len annotation_classes;
    url ← Py.getitem payload "download_url";
    latest ← Py.getitem payload "latest";
    __init__ (Some dataset_slug) (Some team_slug) (Some version)
             (Some url)
             (Some export_date)
             (Some image_count) (Some class_count)
             (Some (VBool true)) (Some latest).

(** The [identifier] property: a [DatasetIdentifier] built, at each
    access, from the f-string over the current fields. *)
Definition identifier_text (r : Release) : string :=
  Py.str repr_other (team_slug r) +:+ "/" +:+
  Py.str repr_other (dataset_slug r) +:+ ":" +:+
  Py.str repr_other (version r).

Definition identifier (r : Release) : DatasetIdentifier :=
  new_identifier (identifier_text r).

(** The assignment [r.version = v]. *)
Definition set_version (r : Release) (v : value) : Release :=
  mkRelease (dataset_slug r) (team_slug r) v (url r) (export_date r)
            (image_count r) (class_count r) (available r) (latest r).

End Release.

Arguments mkRelease {datetime}.
Arguments dataset_slug {datetime}.
Arguments team_slug {datetime}.
Arguments version {datetime}.
Arguments url {datetime}.
Arguments export_date {datetime}.
Arguments image_count {datetime}.
Arguments class_count {datetime}.
Arguments available {datetime}.
Arguments latest {datetime}.
Arguments parse_json {datetime} strptime dataset_slug team_slug payload.
Arguments identifier_text {datetime} repr_other r.
Arguments identifier {datetime} repr_other new_identifier r.
Arguments set_version {datetime} r v.

End Release.

(** ** [darwin/client.py] *)

(** Modelled from the spec: the configuration collaborator
    [darwin.config.Config], with the operations the client calls on it:
    [Config(path=None)], [get(key)], [get_team(team)], [set_team(...)] and
    [set_global(...)].  [get_team] answers with a dictionary or raises. *)
Class ConfigStore (Config : Type) := {
  config_new : Config;
  config_get : Config -> string -> value;
  config_get_team : Config -> value -> result (gmap string value);
  config_set_team : Config -> value -> string -> string -> Config;
  config_set_global : Config -> string -> string -> Config
}.

(** The transport: what [requests.get], [requests.put] and [requests.post]
    are called with, and the response object they hand back.  [json] is
    [None] where [response.json()] raises [ValueError]. *)
Inductive verb := GET | PUT | POST.

Record Request := mkRequest {
  req_verb : verb;
  req_url : string;
  req_json : option value;
  req_headers : gmap string string
}.

Record Response := mkResponse {
  status_code : Z;
  text : string;
  json : option value
}.

(** What the mediator does besides returning: the [i]-th registered handler
    is called, a line is printed, a response is closed. *)
Inductive event :=
| Called (i : nat) (status : Z) (body : value)
| Printed (line : string)
| Closed.

(** A computation that logs events and returns or raises. *)
Definition io (A : Type) : Type := list event * result A.

#[export] Instance io_ret : MRet io := fun _ a => ([], Ok a).
#[export] Instance io_bind : MBind io := fun _ _ f m =>
  match m with
  | (log, Ok a) => let '(log', r) := f a in (log ++ log', r)
  | (log, Raise e) => (log, Raise e)
  end.

Definition lift {A} (r : result A) : io A := ([], r).
Definition raise {A} (e : exn) : io A := ([], Raise e).
Definition emit (ev : event) : io unit := ([ev], Ok tt).
Definition when (b : bool) (m : io unit) : io unit := if b then m else mret tt.

(** [darwin.validators.ErrorHandlerType]: called with the status code and the
    decoded body, it returns or raises. *)
Definition ErrorHandlerType : Type := Z -> value -> result unit.

Module Client.

Section Client.
Context {Config : Type} `{ConfigStore Config}.

(** The collaborators outside this file: the transport, [darwin.utils.urljoin],
    [DatasetIdentifier.parse], the text of floats and containers, the
    process environment and the home directory. *)
Variable requests : Request -> result Response.
Variable urljoin : value -> string -> string.
Variable parse : string -> result DatasetIdentifier.
Variable repr_other : value -> string.
Variable getenv : string -> option string.
Variable home : string.

Record Client := mkClient {
  config : Config;
  url : value;
  base_url : value;
  default_team : value
}.

(** Modelled from the spec: the remote dataset reference of
    [darwin.dataset], which keeps the attributes it is built from and a
    reference to the client. *)
Record RemoteDataset := mkRemoteDataset {
  name : value;
  slug : value;
  team : value;
  dataset_id : value;
  image_count : value;
  progress : value;
  client : Client
}.

Definition __init__ (config : Config) (default_team : value) : Client :=
  {| config := config;
     url := config_get config "global/api_endpoint";
     base_url := config_get config "global/base_url";
     default_team := Py.or_ default_team (config_get config "global/default_team") |}.

Definition __str__ (self : Client) : string :=
  "Client(default_team=" +:+ Py.str repr_other (default_team self) +:+ ")".

(** [response.json()] *)
Definition call_json (response : Response) : result value :=
  match json response with
  | Some v => Ok v
  | None => Raise ValueError
  end.

Definition not_json (response : Response) : value :=
  VDict (<["error" := VStr "Response is not JSON encoded"]>
         (<["status_code" := VInt (status_code response)]>
          (<["text" := VStr (text response)]> ∅))).

Definition _decode_response (response : Response) (debug : bool) : io value :=
  match json response with
  | Some v => mret v
  | None =>
      when debug
        (emit (Printed ("[ERROR " +:+ pretty (status_code response) +:+ "] "
                        +:+ text response)));;
      emit Closed;;
      mret (not_json response)
  end.

Definition _get_headers (self : Client) (team : value) : result (gmap string string) :=
  let header : gmap string string := {["Content-Type" := "application/json"]} in
  team_config ← config_get_team (config self) (Py.or_ team (default_team self));
  let api_key := default VNone (team_config !! "api_key") in
  if Py.is_None api_key then Ok header
  else Ok (<["Authorization" := "ApiKey " +:+ Py.str repr_other api_key]> header).

Inductive get_result :=
| Raw (response : Response)
| Decoded (body : value).

Definition get (self : Client) (endpoint : string) (team : value)
    (raw debug : bool) : io get_result :=
  let target := urljoin (url self) endpoint in
  headers ← lift (_get_headers self team);
  response ← lift (requests (mkRequest GET target None headers));
  if status_code response =? 401 then raise Unauthorized
  else if status_code response =? 404 then
    raise (NotFound (ResUrl (urljoin (url self) endpoint)))
  else if raw then mret (Raw response)
  else body ← _decode_response response debug; mret (Decoded body).

Definition put (self : Client) (endpoint : string) (payload : value)
    (team : value) (debug : bool) : io value :=
  let target := urljoin (url self) endpoint in
  headers ← lift (_get_headers self team);
  response ← lift (requests (mkRequest PUT target (Some payload) headers));
  if status_code response =? 401 then raise Unauthorized
  else
    (if status_code response =? 429 then
       error_code ← lift (body ← call_json response;
                          errors ← Py.getitem body "errors";
                          Py.getitem errors "code");
       if Py.equal error_code (VStr "INSUFFICIENT_REMAINING_STORAGE")
       then raise InsufficientStorage
       else mret tt
     else mret tt);;
    _decode_response response debug.

(** The loop over the handlers of [post]; [i] is the position of the
    first of [error_handlers] in the registered list. *)
Fixpoint run_handlers (i : nat) (error_handlers : list ErrorHandlerType)
    (response : Response) : io unit :=
  match error_handlers with
  | [] => mret tt
  | error_handler :: rest =>
      body ← lift (call_json response);
      emit (Called i (status_code response) body);;
      lift (error_handler (status_code response) body);;
      run_handlers (S i) rest response
  end.

(** The line [post] prints under [debug] for a status it did not expect. *)
Definition unexpected_status (self : Client) (endpoint : string) (payload : value)
    (response : Response) (body : value) : string :=
  "Client get request response (" +:+ Py.str repr_other body
  +:+ ") with unexpected status (" +:+ pretty (status_code response) +:+ "). "
  +:+ "Client: (" +:+ __str__ self +:+ ")"
  +:+ "Request: (endpoint=" +:+ endpoint
  +:+ ", payload=" +:+ Py.str repr_other payload +:+ ")".

Definition post (self : Client) (endpoint : string) (payload : value)
    (team : value) (error_handlers : option (list ErrorHandlerType))
    (debug : bool) : io value :=
  let payload := if Py.is_None payload then VDict ∅ else payload in
  let error_handlers := default [] error_handlers in
  let target := urljoin (url self) endpoint in
  headers ← lift (_get_headers self team);
  response ← lift (requests (mkRequest POST target (Some payload) headers));
  if status_code response =? 401 then raise Unauthorized
  else
    (if negb (status_code response =? 200) then
       run_handlers 0 error_handlers response;;
       when debug
         (body ← lift (call_json response);
          emit (Printed (unexpected_status self endpoint payload response body)))
     else mret tt);;
    _decode_response response debug.

(** The requests the three operations send. *)
Definition get_request (self : Client) (endpoint : string)
    (headers : gmap string string) : Request :=
  mkRequest GET (urljoin (url self) endpoint) None headers.

Definition put_request (self : Client) (endpoint : string) (payload : value)
    (headers : gmap string string) : Request :=
  mkRequest PUT (urljoin (url self) endpoint) (Some payload) headers.

Definition post_request (self : Client) (endpoint : string) (payload : value)
    (headers : gmap string string) : Request :=
  mkRequest POST (urljoin (url self) endpoint)
            (Some (if Py.is_None payload then VDict ∅ else payload)) headers.

(** One step of the generator of [list_remote_datasets]. *)
Definition remote_dataset_of (self : Client) (team : value) (dataset : value)
  : result RemoteDataset :=
  name ← Py.getitem dataset "name";
  slug ← Py.getitem dataset "slug";
  dataset_id ← Py.getitem dataset "id";
  image_count ← Py.getitem dataset "num_images";
  progress ← Py.getitem dataset "progress";
  Ok {| name := name;
        slug := slug;
        team := Py.or_ team (default_team self);
        dataset_id := dataset_id;
        image_count := image_count;
        progress := progress;
        client := self |}.

(** [list_remote_datasets], run to the end as the comprehension of
    [get_remote_dataset] does.  [get] is called without [raw], so it
    answers with a decoded body. *)
Definition list_remote_datasets (self : Client) (team : value)
  : io (list RemoteDataset) :=
  answer ← get self "/datasets/" team false false;
  match answer with
  | Decoded listing =>
      datasets ← lift (Py.iter listing);
      lift (mapM (remote_dataset_of self team) datasets)
  | Raw _ => raise TypeError
  end.

(** The first two statements of [get_remote_dataset]: a string is parsed,
    and a team slug that is unset or empty is replaced by the default team. *)
Definition as_identifier (dataset_identifier : string + DatasetIdentifier)
  : result DatasetIdentifier :=
  match dataset_identifier with
  | inl text => parse text
  | inr identifier => Ok identifier
  end.

Definition with_default_team (self : Client) (identifier : DatasetIdentifier)
  : DatasetIdentifier :=
  if negb (Py.truthy (di_team_slug identifier))
  then mkDatasetIdentifier (default_team self)
                           (di_dataset_slug identifier)
                           (di_version identifier)
  else identifier.

(** The condition of the comprehension, [dataset.slug == dataset_identifier.dataset_slug]. *)
Definition slug_matches (identifier : DatasetIdentifier) (dataset : RemoteDataset) : bool :=
  Py.equal (slug dataset) (di_dataset_slug identifier).

Definition get_remote_dataset (self : Client)
    (dataset_identifier : string + DatasetIdentifier) : io RemoteDataset :=
  dataset_identifier ← lift (as_identifier dataset_identifier);
  let dataset_identifier := with_default_team self dataset_identifier in
  datasets ← list_remote_datasets self (di_team_slug dataset_identifier);
  let matching_datasets := List.filter (slug_matches dataset_identifier) datasets in
  match matching_datasets with
  | [] => raise (NotFound (ResIdentifier dataset_identifier))
  | dataset :: _ => mret dataset
  end.

Definition default_base_url : string :=
  default "https://darwin.v7labs.com" (getenv "DARWIN_BASE_URL").

Definition default_api_url : string := default_base_url +:+ "/api/".

(** The comprehension [[team["slug"] for team in teams if team["id"] == team_id]]. *)
Fixpoint matching_slugs (team_id : value) (teams : list value) : result (list value) :=
  match teams with
  | [] => Ok []
  | team :: rest =>
      id ← Py.getitem team "id";
      if Py.equal id team_id then
        slug ← Py.getitem team "slug";
        slugs ← matching_slugs team_id rest;
        Ok (slug :: slugs)
      else matching_slugs team_id rest
  end.

Definition token_info_request (api_key : string) : Request :=
  mkRequest GET (urljoin (VStr default_api_url) "/users/token_info") None
            (<["Content-Type" := "application/json"]>
             (<["Authorization" := "ApiKey " +:+ api_key]> ∅)).

(** [from_api_key]; a path is the string that names it. *)
Definition from_api_key (api_key : string) (datasets_dir : option string)
  : result Client :=
  let datasets_dir := default (home +:+ "/.darwin/datasets") datasets_dir in
  let api_url := default_api_url in
  response ← requests (token_info_request api_key);
  if negb (status_code response =? 200) then Raise InvalidLogin
  else
    data ← call_json response;
    selected_team ← Py.getitem data "selected_team";
    team_id ← Py.getitem selected_team "id";
    teams ← Py.getitem data "teams";
    teams ← Py.iter teams;
    slugs ← matching_slugs team_id teams;
    team ← Py.first slugs;
    let config := config_new in
    let config := config_set_team config team api_key datasets_dir in
    let config := config_set_global config api_url default_base_url in
    Ok (__init__ config team).

(** The rest of the facade.  Its collaborators: the two handlers of
    [darwin.validators], [Path.exists], the constructor [Config(path)],
    [Path.glob] with the pattern [*], [Path.is_dir] and
    [darwin.utils.is_project_dir]. *)
Variable name_taken : ErrorHandlerType.
Variable validation_error : ErrorHandlerType.
Variable path_exists : string -> bool.
Variable config_load : string -> result Config.
Variable glob_all : string -> list string.
Variable is_dir : string -> bool.
Variable is_project_dir : string -> bool.

(** [create_dataset].  The constructor call reads [name], [slug], [id],
    [num_images] and [progress] off the answer in that order, as the
    generator of [list_remote_datasets] does. *)
Definition create_dataset (self : Client) (name : string) (team : value)
  : io RemoteDataset :=
  dataset ← post self "/datasets" (VDict {["name" := VStr name]}) team
                 (Some [name_taken; validation_error]) false;
  lift (remote_dataset_of self team dataset).

(** [mapping[key]] on the dictionary [get_team] answers with. *)
Definition team_setting (team_config : gmap string value) (key : string) : result value :=
  match team_config !! key with
  | Some v => Ok v
  | None => Raise (KeyError key)
  end.

Definition get_datasets_dir (self : Client) (team : value) : result value :=
  team_config ← config_get_team (config self) (Py.or_ team (default_team self));
  team_setting team_config "datasets_dir".

(** [Path(v)]: a path is made of a string only. *)
Definition as_path (v : value) : result string :=
  match v with
  | VStr s => Ok s
  | _ => Raise TypeError
  end.

(** [list_local_datasets], run to the end. *)
Definition list_local_datasets (self : Client) (team : value) : result (list string) :=
  team_config ← config_get_team (config self) (Py.or_ team (default_team self));
  datasets_dir ← team_setting team_config "datasets_dir";
  root ← as_path datasets_dir;
  Ok (List.filter (fun project_path => is_dir project_path && is_project_dir project_path)
                  (glob_all root)).

Definition from_config (config_path : string) (team_slug : value) : result Client :=
  if negb (path_exists config_path) then Raise MissingConfig
  else
    config ← config_load config_path;
    Ok (__init__ config team_slug).

Definition local (team_slug : value) : result Client :=
  from_config (home +:+ "/.darwin/config.yaml") team_slug.

End Client.

End Client.

(** ** [darwin/exporter/formats/__init__.py] *)

Module Formats.

Section Formats.
(** The [export] functions of the six format modules. *)
Variable exporter : Type.
Variable coco cvat dataloop instance_mask pascalvoc semantic_mask : exporter.

Definition supported_formats : list (string * exporter) :=
  [("coco", coco);
   ("cvat", cvat);
   ("dataloop", dataloop);
   ("pascal_voc", pascalvoc);
   ("semantic_mask", semantic_mask);
   ("instance_mask", instance_mask)].

End Formats.

End Formats.

(** The handler calls [post] logs for [n] handlers in a row, the first of
    them registered at position [i]. *)
Definition calls (i n : nat) (status : Z) (body : value) : list event :=
  (fun k => Called k status body) <$> seq i n.

(** The event is a handler call. *)
Definition is_call (ev : event) : bool :=
  match ev with Called _ _ _ => true | _ => false end.

(** ** Concrete collaborators

    An in-memory configuration, a slash-stripping [urljoin] and a transport
    that answers every request with one response: what the statements below
    are run on. *)

Module Demo.

Fixpoint lstrip_slash (s : string) : string :=
  match s with
  | String "/"%char rest => lstrip_slash rest
  | _ => s
  end.

Definition strip_slash (s : string) : string :=
  String.rev (lstrip_slash (String.rev (lstrip_slash s))).

Definition repr_other (v : value) : string := "<object>".

(** A join that strips the slashes around each part and puts one between
    the two. *)
Definition urljoin (base : value) (endpoint : string) : string :=
  strip_slash (Py.str repr_other base) +:+ "/" +:+ strip_slash endpoint.

Definition team_key (team : value) (field : string) : string :=
  "teams/" +:+ Py.str repr_other team +:+ "/" +:+ field.

(** Modelled from the spec: a configuration held in memory, one entry per
    key such as [global/api_endpoint] or [teams/acme/api_key]; a key that
    is not set reads as [None]. *)
#[global] Instance map_config : ConfigStore (gmap string value) := {
  config_new := ∅;
  config_get c key := default VNone (c !! key);
  config_get_team c team :=
    Ok (<["api_key" := default VNone (c !! team_key team "api_key")]>
        (<["datasets_dir" := default VNone (c !! team_key team "datasets_dir")]> ∅));
  config_set_team c team api_key datasets_dir :=
    <[team_key team "api_key" := VStr api_key]>
      (<[team_key team "datasets_dir" := VStr datasets_dir]> c);
  config_set_global c api_endpoint base_url :=
    <["global/api_endpoint" := VStr api_endpoint]>
      (<["global/base_url" := VStr base_url]> c)
}.

Definition no_env (name : string) : option string := None.

Definition answer (response : Response) (request : Request) : result Response :=
  Ok response.

Definition parse_slug (text : string) : result DatasetIdentifier :=
  Ok (mkDatasetIdentifier VNone (VStr text) VNone).

(** The client [from_api_key] sets up for the team [acme]. *)
Definition acme : Client.Client :=
  Client.__init__
    (config_set_global
       (config_set_team config_new (VStr "acme") "secret" "/home/u/.darwin/datasets")
       "https://darwin.v7labs.com/api/" "https://darwin.v7labs.com")
    (VStr "acme").

Definition acme_headers : gmap string string :=
  <["Authorization" := "ApiKey secret"]> {["Content-Type" := "application/json"]}.

Definition html (status : Z) : Response :=
  mkResponse status "<html>Bad Gateway</html>" None.

Definition storage_full : value :=
  VDict {["errors" := VDict {["code" := VStr "INSUFFICIENT_REMAINING_STORAGE"]}]}.

Definition name_taken : ErrorHandlerType := fun status body =>
  if status =? 422 then Raise NameTaken else Ok tt.

Definition validation_error : ErrorHandlerType := fun status body =>
  if status =? 400 then Raise (ValidationError body) else Ok tt.

Definition rate_limited : value :=
  VDict {["errors" := VDict {["code" := VStr "RATE_LIMITED"]}]}.

Definition json_response (status : Z) (body : value) : Response :=
  mkResponse status "{...}" (Some body).

Definition summary (id : Z) (name slug : string) : value :=
  VDict (<["id" := VInt id]>
         (<["name" := VStr name]>
          (<["slug" := VStr slug]>
           (<["num_images" := VInt 10]>
            (<["progress" := VFloat 0.5%float]> ∅))))).

(** A listing in which two datasets have the slug cats. *)
Definition listing : value :=
  VList [summary 1 "Dogs" "dogs"; summary 2 "Cats" "cats"; summary 3 "More cats" "cats"].

Definition remote (id : Z) (name slug : string) : Client.RemoteDataset :=
  Client.mkRemoteDataset (VStr name) (VStr slug) (VStr "acme") (VInt id)
                         (VInt 10) (VFloat 0.5%float) acme.

Definition team_entry (id : Z) (slug : string) : value :=
  VDict (<["id" := VInt id]> {["slug" := VStr slug]}).

Definition token_info (selected : Z) (teams : list value) : value :=
  VDict (<["selected_team" := VDict {["id" := VInt selected]}]>
         {["teams" := VList teams]}).

(** A [strptime] that takes any text that is not empty. *)
Definition strptime (text format : string) : option string :=
  if String.eqb text EmptyString then None else Some text.

Definition new_identifier (text : string) : DatasetIdentifier :=
  mkDatasetIdentifier VNone (VStr text) VNone.

Definition unavailable_payload : value :=
  VDict (<["inserted_at" := VStr "2020-01-01T00:00:00+0000"]>
         (<["download_url" := VNone]>
          {["version" := VStr "1.0"]})).

Definition available_payload : value :=
  VDict (<["inserted_at" := VStr "2020-01-01T00:00:00+0000"]>
         (<["download_url" := VStr "http://x"]>
          (<["name" := VStr "v2"]>
           (<["latest" := VBool true]>
            {["metadata" :=
                VDict (<["num_images" := VInt 10]>
                       {["annotation_classes" := VList [VStr "a"; VStr "b"; VStr "c"]]})]})))).

Definition release_v2 : Release.Release string :=
  Release.mkRelease (VStr "cats") (VStr "acme") (VStr "v2") (VStr "http://x")
                    "2020-01-01T00:00:00+0000" (VInt 10) (VInt 3)
                    (VBool true) (VBool true).

Definition acme_team_config : gmap string value :=
  <["api_key" := VStr "secret"]>
    (<["datasets_dir" := VStr "/home/u/.darwin/datasets"]> ∅).

(** A transport with no network. *)
Definition offline (request : Request) : result Response :=
  Raise (External "ConnectionError").

(** A listing whose second entry has a slug only. *)
Definition broken_listing : value :=
  VList [summary 2 "Cats" "cats"; VDict {["slug" := VStr "dogs"]}].

Definition three_teams : value :=
  token_info 7 [team_entry 8 "other"; team_entry 7 "acme"; team_entry 7 "second"].

Definition no_files (path : string) : bool := false.

Definition load_nothing (path : string) : result (gmap string value) := Ok ∅.

(** A datasets directory with a project, a plain directory and a file. *)
Definition glob_all (root : string) : list string :=
  [root +:+ "/cats"; root +:+ "/scratch"; root +:+ "/notes.txt"].

Definition is_dir (path : string) : bool :=
  negb (String.eqb path "/home/u/.darwin/datasets/notes.txt").

Definition is_project_dir (path : string) : bool :=
  String.eqb path "/home/u/.darwin/datasets/cats".

End Demo.

(** * Properties *)

(** ** Python values *)

Lemma equal_str_iff (v : value) (s : string) :
  Py.equal v (VStr s) = true <-> v = VStr s.
Proof.
  destruct v; simpl; try (split; [discriminate | intros [=]]).
  rewrite String.eqb_eq. split; [intros -> | intros [=]]; congruence.
Qed.

Lemma bind_lift_ok {A B} (a : A) (f : A -> io B) : lift (Ok a) ≫= f = f a.
Proof. unfold lift, mbind, io_bind. by destruct (f a). Qed.

(** ** The request mediator *)

Section Mediator.
Context {Config : Type} `{ConfigStore Config}.
Variable requests : Request -> result Response.
Variable urljoin : value -> string -> string.
Variable repr_other : value -> string.

Abbreviation Client := (@Client.Client Config).
Abbreviation get := (Client.get requests urljoin repr_other).
Abbreviation put := (Client.put requests urljoin repr_other).
Abbreviation post := (Client.post requests urljoin repr_other).
Abbreviation _get_headers := (Client._get_headers repr_other).
Abbreviation get_request := (Client.get_request urljoin).
Abbreviation put_request := (Client.put_request urljoin).
Abbreviation post_request := (Client.post_request urljoin).

(** C2: a response with status 401 makes GET, PUT and POST raise
    [Unauthorized], with no handler called and nothing returned, whatever
    the body, the raw flag, the debug flag and the registered handlers. *)
Theorem unauthorized_on_401 (self : Client) (endpoint : string) (payload team : value)
    (raw debug : bool) (error_handlers : option (list ErrorHandlerType))
    (headers : gmap string string) (response : Response) :
  _get_headers self team = Ok headers ->
  status_code response = 401 ->
  (requests (get_request self endpoint headers) = Ok response ->
   get self endpoint team raw debug = ([], Raise Unauthorized)) /\
  (requests (put_request self endpoint payload headers) = Ok response ->
   put self endpoint payload team debug = ([], Raise Unauthorized)) /\
  (requests (post_request self endpoint payload headers) = Ok response ->
   post self endpoint payload team error_handlers debug = ([], Raise Unauthorized)).
Proof.
  intros Hh Hs. repeat split; intros Hr.
  - unfold Client.get. rewrite Hh. simpl. unfold get_request in Hr.
    rewrite Hr. simpl. by rewrite Hs.
  - unfold Client.put. rewrite Hh. simpl. unfold put_request in Hr.
    rewrite Hr. simpl. by rewrite Hs.
  - unfold Client.post. rewrite Hh. simpl. unfold post_request in Hr.
    rewrite Hr. simpl. by rewrite Hs.
Qed.

(** C5, as the code has it: a GET answered with 404 raises [NotFound]
    carrying the join of the client's [url] (the configured API endpoint, the
    address the request went to) and the endpoint; the raw flag does not
    matter. *)
Theorem not_found_on_404 (self : Client) (endpoint : string) (team : value)
    (raw debug : bool) (headers : gmap string string) (response : Response) :
  _get_headers self team = Ok headers ->
  requests (get_request self endpoint headers) = Ok response ->
  status_code response = 404 ->
  get self endpoint team raw debug
  = ([], Raise (NotFound (ResUrl (urljoin (Client.url self) endpoint)))).
Proof.
  intros Hh Hr Hs. unfold Client.get. rewrite Hh. simpl.
  unfold Client.get_request in Hr. rewrite Hr. simpl. by rewrite Hs.
Qed.

Lemma decode_not_json (response : Response) (debug : bool) :
  json response = None ->
  snd (Client._decode_response response debug) = Ok (Client.not_json response).
Proof. intros Hj. unfold Client._decode_response. rewrite Hj. by destruct debug. Qed.

Lemma decode_json (response : Response) (debug : bool) (body : value) :
  json response = Some body ->
  Client._decode_response response debug = ([], Ok body).
Proof. intros Hj. unfold Client._decode_response. by rewrite Hj. Qed.

(** C3, as the code has it: with a body that does not parse, GET without the
    raw flag (status neither 401 nor 404), PUT (status neither 401 nor 429)
    and POST (status 200, or another status than 401 with no handler
    registered and debug off) return the synthesized mapping. *)
Theorem not_json_fallback (self : Client) (endpoint : string) (payload team : value)
    (debug : bool) (error_handlers : option (list ErrorHandlerType))
    (headers : gmap string string) (response : Response) :
  _get_headers self team = Ok headers ->
  json response = None ->
  status_code response <> 401 ->
  (requests (get_request self endpoint headers) = Ok response ->
   status_code response <> 404 ->
   snd (get self endpoint team false debug)
   = Ok (Client.Decoded (Client.not_json response))) /\
  (requests (put_request self endpoint payload headers) = Ok response ->
   status_code response <> 429 ->
   snd (put self endpoint payload team debug) = Ok (Client.not_json response)) /\
  (requests (post_request self endpoint payload headers) = Ok response ->
   status_code response = 200 \/ (default [] error_handlers = [] /\ debug = false) ->
   snd (post self endpoint payload team error_handlers debug)
   = Ok (Client.not_json response)).
Proof.
  intros Hh Hj H401. apply Z.eqb_neq in H401. repeat split.
  - intros Hr H404. apply Z.eqb_neq in H404.
    unfold Client.get. rewrite Hh. simpl. unfold Client.get_request in Hr.
    rewrite Hr. simpl. rewrite H401, H404.
    pose proof (decode_not_json response debug Hj) as Hd.
    destruct (Client._decode_response response debug) as [log r].
    simpl in Hd. by subst r.
  - intros Hr H429. apply Z.eqb_neq in H429.
    unfold Client.put. rewrite Hh. simpl. unfold Client.put_request in Hr.
    rewrite Hr. simpl. rewrite H401, H429. simpl.
    rewrite <- (decode_not_json response debug Hj).
    by destruct (Client._decode_response response debug).
  - intros Hr Hcase.
    unfold Client.post. rewrite Hh. simpl. unfold Client.post_request in Hr.
    rewrite Hr. simpl. rewrite H401.
    rewrite <- (decode_not_json response debug Hj).
    destruct Hcase as [H200 | [Hnil ->]].
    + rewrite H200. simpl. by destruct (Client._decode_response response debug).
    + rewrite Hnil. destruct (negb _); simpl;
        by destruct (Client._decode_response response false).
Qed.

(** The two places where the mediator decodes outside [_decode_response]:
    there a body that does not parse raises [ValueError]. *)
Lemma put_429_not_json_raises (self : Client) (endpoint : string) (payload team : value)
    (debug : bool) (headers : gmap string string) (response : Response) :
  _get_headers self team = Ok headers ->
  requests (put_request self endpoint payload headers) = Ok response ->
  status_code response = 429 ->
  json response = None ->
  put self endpoint payload team debug = ([], Raise ValueError).
Proof.
  intros Hh Hr Hs Hj. unfold Client.put. rewrite Hh. simpl.
  unfold Client.put_request in Hr. rewrite Hr. simpl. rewrite Hs. simpl.
  unfold Client.call_json. by rewrite Hj.
Qed.

Lemma post_handler_not_json_raises (self : Client) (endpoint : string)
    (payload team : value) (debug : bool) (handler : ErrorHandlerType)
    (rest : list ErrorHandlerType) (headers : gmap string string) (response : Response) :
  _get_headers self team = Ok headers ->
  requests (post_request self endpoint payload headers) = Ok response ->
  status_code response <> 401 ->
  status_code response <> 200 ->
  json response = None ->
  post self endpoint payload team (Some (handler :: rest)) debug = ([], Raise ValueError).
Proof.
  intros Hh Hr H401 H200 Hj. apply Z.eqb_neq in H401, H200.
  unfold Client.post. rewrite Hh. simpl.
  unfold Client.post_request in Hr. rewrite Hr. simpl. rewrite H401, H200. simpl.
  unfold Client.call_json. by rewrite Hj.
Qed.

(** C4: a PUT answered with 429 whose decoded body has an [errors.code]
    raises [InsufficientStorage] when that code is the string
    INSUFFICIENT_REMAINING_STORAGE, and returns the decoded body when it is
    anything else. *)
Theorem put_429_error_code (self : Client) (endpoint : string) (payload team : value)
    (debug : bool) (headers : gmap string string) (response : Response)
    (body errors code : value) :
  _get_headers self team = Ok headers ->
  requests (put_request self endpoint payload headers) = Ok response ->
  status_code response = 429 ->
  json response = Some body ->
  Py.getitem body "errors" = Ok errors ->
  Py.getitem errors "code" = Ok code ->
  (code = VStr "INSUFFICIENT_REMAINING_STORAGE" ->
   put self endpoint payload team debug = ([], Raise InsufficientStorage)) /\
  (code <> VStr "INSUFFICIENT_REMAINING_STORAGE" ->
   put self endpoint payload team debug = ([], Ok body)).
Proof.
  intros Hh Hr Hs Hj He Hc.
  assert (Hput : put self endpoint payload team debug
                 = if Py.equal code (VStr "INSUFFICIENT_REMAINING_STORAGE")
                   then ([], Raise InsufficientStorage) else ([], Ok body)).
  { unfold Client.put. rewrite Hh. simpl.
    unfold Client.put_request in Hr. rewrite Hr. simpl. rewrite Hs. simpl.
    unfold Client.call_json. rewrite Hj. simpl. rewrite He. simpl. rewrite Hc. simpl.
    destruct (Py.equal code _); [done |].
    simpl. by rewrite (decode_json response debug body Hj). }
  rewrite Hput. split.
  - intros Heq. apply equal_str_iff in Heq. by rewrite Heq.
  - intros Hne. destruct (Py.equal code _) eqn:Heq; [| done].
    by apply equal_str_iff in Heq.
Qed.

Lemma calls_S (i n : nat) (status : Z) (body : value) :
  calls i (S n) status body = Called i status body :: calls (S i) n status body.
Proof. reflexivity. Qed.

Lemma filter_calls (i n : nat) (status : Z) (body : value) :
  List.filter is_call (calls i n status body) = calls i n status body.
Proof.
  revert i. induction n as [| n IH]; intros i; [done |].
  rewrite calls_S. simpl. by rewrite IH.
Qed.

(** The loop calls every handler while each returns. *)
Lemma run_handlers_return (response : Response) (body : value)
    (error_handlers : list ErrorHandlerType) (i : nat) :
  json response = Some body ->
  Forall (fun handler => handler (status_code response) body = Ok tt) error_handlers ->
  Client.run_handlers i error_handlers response
  = (calls i (length error_handlers) (status_code response) body, Ok tt).
Proof.
  intros Hj Hall. revert i.
  induction Hall as [| handler rest Hh _ IH]; intros i; [done |].
  simpl. unfold Client.call_json. rewrite Hj. simpl. rewrite Hh. simpl.
  rewrite IH. by rewrite calls_S.
Qed.

(** The loop stops at the first handler that raises. *)
Lemma run_handlers_raise (response : Response) (body : value)
    (before : list ErrorHandlerType) (handler : ErrorHandlerType)
    (rest : list ErrorHandlerType) (e : exn) (i : nat) :
  json response = Some body ->
  Forall (fun earlier => earlier (status_code response) body = Ok tt) before ->
  handler (status_code response) body = Raise e ->
  Client.run_handlers i (before ++ handler :: rest) response
  = (calls i (S (length before)) (status_code response) body, Raise e).
Proof.
  intros Hj Hall He. revert i.
  induction Hall as [| earlier before Hh _ IH]; intros i.
  - simpl. unfold Client.call_json. rewrite Hj. simpl. by rewrite He.
  - simpl. unfold Client.call_json. rewrite Hj. simpl. rewrite Hh. simpl.
    rewrite IH. by rewrite !calls_S.
Qed.

Lemma decode_no_call (response : Response) (debug : bool) :
  List.filter is_call (fst (Client._decode_response response debug)) = [].
Proof. unfold Client._decode_response. by destruct (json response), debug. Qed.

(** [post] once the request is answered with a status other than 401. *)
Lemma post_answered (self : Client) (endpoint : string) (payload team : value)
    (debug : bool) (error_handlers : option (list ErrorHandlerType))
    (headers : gmap string string) (response : Response) :
  _get_headers self team = Ok headers ->
  requests (post_request self endpoint payload headers) = Ok response ->
  status_code response <> 401 ->
  post self endpoint payload team error_handlers debug
  = ((if negb (status_code response =? 200) then
        (Client.run_handlers 0 (default [] error_handlers) response;;
         when debug
           (body ← lift (Client.call_json response);
            emit (Printed (Client.unexpected_status repr_other self endpoint
                             (if Py.is_None payload then VDict ∅ else payload)
                             response body))))
      else mret tt);;
     Client._decode_response response debug).
Proof.
  intros Hh Hr H401. apply Z.eqb_neq in H401.
  unfold Client.post. rewrite Hh. simpl.
  unfold Client.post_request in Hr. rewrite Hr. simpl. rewrite H401.
  match goal with |- _ = ?rhs => by destruct rhs end.
Qed.

(** C7, as the code has it: on a POST whose status is neither 401 nor 200
    and whose body decodes, the handlers are called in registration order
    with the status and the decoded body; the first that raises ends the
    call with its error and the later ones are not called; when none raises
    the decoded body is returned.  On status 200 no handler is called. *)
Theorem post_error_handlers (self : Client) (endpoint : string) (payload team : value)
    (debug : bool) (error_handlers : option (list ErrorHandlerType))
    (headers : gmap string string) (response : Response) :
  _get_headers self team = Ok headers ->
  requests (post_request self endpoint payload headers) = Ok response ->
  status_code response <> 401 ->
  (forall body before handler rest e,
     status_code response <> 200 ->
     json response = Some body ->
     default [] error_handlers = before ++ handler :: rest ->
     Forall (fun earlier => earlier (status_code response) body = Ok tt) before ->
     handler (status_code response) body = Raise e ->
     post self endpoint payload team error_handlers debug
     = (calls 0 (S (length before)) (status_code response) body, Raise e)) /\
  (forall body,
     status_code response <> 200 ->
     json response = Some body ->
     Forall (fun handler => handler (status_code response) body = Ok tt)
            (default [] error_handlers) ->
     List.filter is_call (fst (post self endpoint payload team error_handlers debug))
     = calls 0 (length (default [] error_handlers)) (status_code response) body /\
     snd (post self endpoint payload team error_handlers debug) = Ok body) /\
  (status_code response = 200 ->
   post self endpoint payload team error_handlers debug
   = Client._decode_response response debug /\
   List.filter is_call (fst (post self endpoint payload team error_handlers debug)) = []).
Proof.
  intros Hh Hr H401.
  rewrite (post_answered self endpoint payload team debug error_handlers
             headers response Hh Hr H401).
  split; [| split].
  - intros body before handler rest e H200 Hj Hsplit Hbefore He.
    apply Z.eqb_neq in H200. rewrite H200, Hsplit. simpl.
    by rewrite (run_handlers_raise response body before handler rest e 0 Hj Hbefore He).
  - intros body H200 Hj Hall. apply Z.eqb_neq in H200. rewrite H200. simpl.
    rewrite (run_handlers_return response body _ 0 Hj Hall).
    rewrite (decode_json response debug body Hj).
    unfold Client.call_json. rewrite Hj.
    destruct debug; simpl; rewrite ?app_nil_r, ?List.filter_app, filter_calls;
      simpl; by rewrite ?app_nil_r.
  - intros H200. rewrite H200. simpl.
    pose proof (decode_no_call response debug) as Hd.
    destruct (Client._decode_response response debug) as [log r]. done.
Qed.

End Mediator.

(** ** The client facade *)

Section Facade.
Context {Config : Type} `{ConfigStore Config}.
Variable requests : Request -> result Response.
Variable urljoin : value -> string -> string.
Variable parse : string -> result DatasetIdentifier.
Variable repr_other : value -> string.
Variable getenv : string -> option string.
Variable home : string.

Abbreviation Client := (@Client.Client Config).
Abbreviation list_remote_datasets := (Client.list_remote_datasets requests urljoin repr_other).
Abbreviation get_remote_dataset := (Client.get_remote_dataset requests urljoin parse repr_other).
Abbreviation from_api_key := (Client.from_api_key requests urljoin getenv home).
Abbreviation token_info_request := (Client.token_info_request urljoin getenv).

Lemma filter_none {A} (f : A -> bool) (l : list A) :
  Forall (fun x => f x = false) l -> List.filter f l = [].
Proof. induction 1 as [| x l Hx _ IH]; simpl; [done |]. by rewrite Hx. Qed.

Lemma filter_first {A} (f : A -> bool) (before : list A) (x : A) (rest : list A) :
  Forall (fun y => f y = false) before ->
  f x = true ->
  List.filter f (before ++ x :: rest) = x :: List.filter f rest.
Proof.
  intros Hb Hx. rewrite List.filter_app, (filter_none f before Hb). simpl.
  by rewrite Hx.
Qed.

(** C6: once the identifier is parsed, its team defaulted, and the listing
    of that team obtained, [get_remote_dataset] raises [NotFound] carrying
    the identifier when no dataset of the listing has its slug, and
    otherwise returns the first dataset of the listing that has it,
    whatever follows it. *)
Theorem get_remote_dataset_first_match (self : Client)
    (dataset_identifier : string + DatasetIdentifier) (parsed : DatasetIdentifier)
    (log : list event) (datasets : list Client.RemoteDataset) :
  Client.as_identifier parse dataset_identifier = Ok parsed ->
  list_remote_datasets self (di_team_slug (Client.with_default_team self parsed))
  = (log, Ok datasets) ->
  (Forall (fun dataset =>
             Py.equal (Client.slug dataset)
                      (di_dataset_slug (Client.with_default_team self parsed)) = false)
          datasets ->
   get_remote_dataset self dataset_identifier
   = (log, Raise (NotFound (ResIdentifier (Client.with_default_team self parsed))))) /\
  (forall before dataset rest,
     datasets = before ++ dataset :: rest ->
     Forall (fun earlier =>
               Py.equal (Client.slug earlier)
                        (di_dataset_slug (Client.with_default_team self parsed)) = false)
            before ->
     Py.equal (Client.slug dataset)
              (di_dataset_slug (Client.with_default_team self parsed)) = true ->
     get_remote_dataset self dataset_identifier = (log, Ok dataset)).
Proof.
  intros Hp Hl. unfold Client.get_remote_dataset.
  rewrite Hp, bind_lift_ok, Hl. unfold mbind, io_bind. split.
  - intros Hnone.
    rewrite (filter_none (Client.slug_matches _) datasets Hnone).
    simpl. by rewrite app_nil_r.
  - intros before dataset rest -> Hbefore Hmatch.
    rewrite (filter_first (Client.slug_matches _) before dataset rest Hbefore Hmatch).
    simpl. by rewrite app_nil_r.
Qed.

Lemma matching_slugs_none (team_id : value) (teams : list value) :
  Forall (fun team => exists id, Py.getitem team "id" = Ok id
                                 /\ Py.equal id team_id = false) teams ->
  Client.matching_slugs team_id teams = Ok [].
Proof.
  induction 1 as [| team rest (id & Hid & Hne) _ IH]; [done |].
  simpl. rewrite Hid. simpl. by rewrite Hne.
Qed.

(** [from_api_key] once the token-info request is answered with 200 and a
    body that has the selected team's id and a list of teams. *)
Lemma from_api_key_answered (api_key : string) (datasets_dir : option string)
    (response : Response) (data selected_team team_id : value) (teams : list value) :
  requests (token_info_request api_key) = Ok response ->
  status_code response = 200 ->
  json response = Some data ->
  Py.getitem data "selected_team" = Ok selected_team ->
  Py.getitem selected_team "id" = Ok team_id ->
  Py.getitem data "teams" = Ok (VList teams) ->
  from_api_key api_key datasets_dir
  = (slugs ← Client.matching_slugs team_id teams;
     team ← Py.first slugs;
     Ok (Client.__init__
           (config_set_global
              (config_set_team config_new team api_key
                 (default (home +:+ "/.darwin/datasets") datasets_dir))
              (Client.default_api_url getenv) (Client.default_base_url getenv))
           team)).
Proof.
  intros Hr Hs Hj Hsel Hid Hteams. unfold Client.from_api_key.
  rewrite Hr. simpl. rewrite Hs. simpl.
  unfold Client.call_json. rewrite Hj. simpl.
  rewrite Hsel. simpl. rewrite Hid. simpl. by rewrite Hteams.
Qed.

(** C8: a token-info answer with another status than 200 makes
    [from_api_key] raise [InvalidLogin]; an answer with status 200, selected
    team id 7 and the one team of id 7 and slug acme gives a client whose
    default team is acme. *)
Theorem from_api_key_default_team (api_key : string) (datasets_dir : option string)
    (response : Response) :
  requests (token_info_request api_key) = Ok response ->
  (status_code response <> 200 ->
   from_api_key api_key datasets_dir = Raise InvalidLogin) /\
  (forall data selected_team team,
     status_code response = 200 ->
     json response = Some data ->
     Py.getitem data "selected_team" = Ok selected_team ->
     Py.getitem selected_team "id" = Ok (VInt 7) ->
     Py.getitem data "teams" = Ok (VList [team]) ->
     Py.getitem team "id" = Ok (VInt 7) ->
     Py.getitem team "slug" = Ok (VStr "acme") ->
     exists client,
       from_api_key api_key datasets_dir = Ok client
       /\ Client.default_team client = VStr "acme").
Proof.
  intros Hr. split.
  - intros Hs. apply Z.eqb_neq in Hs. unfold Client.from_api_key.
    rewrite Hr. simpl. by rewrite Hs.
  - intros data selected_team team Hs Hj Hsel Hid Hteams Htid Hslug.
    rewrite (from_api_key_answered api_key datasets_dir response data selected_team
               (VInt 7) [team] Hr Hs Hj Hsel Hid Hteams).
    simpl. rewrite Htid. simpl. rewrite Hslug. simpl.
    eexists. split; [reflexivity | reflexivity].
Qed.

(** C10: a token-info answer with status 200 in which no team of the list
    has the selected team's id makes [from_api_key] raise [IndexError], the
    error of taking the first element of an empty list, which is none of the
    five named kinds. *)
Theorem from_api_key_no_matching_team (api_key : string) (datasets_dir : option string)
    (response : Response) (data selected_team team_id : value) (teams : list value) :
  requests (token_info_request api_key) = Ok response ->
  status_code response = 200 ->
  json response = Some data ->
  Py.getitem data "selected_team" = Ok selected_team ->
  Py.getitem selected_team "id" = Ok team_id ->
  Py.getitem data "teams" = Ok (VList teams) ->
  Forall (fun team => exists id, Py.getitem team "id" = Ok id
                                 /\ Py.equal id team_id = false) teams ->
  from_api_key api_key datasets_dir = Raise IndexError
  /\ named_kind IndexError = false.
Proof.
  intros Hr Hs Hj Hsel Hid Hteams Hnone.
  rewrite (from_api_key_answered api_key datasets_dir response data selected_team
             team_id teams Hr Hs Hj Hsel Hid Hteams).
  by rewrite (matching_slugs_none team_id teams Hnone).
Qed.

End Facade.

(** ** Releases *)

Section Releases.
Variable datetime : Type.
Variable strptime : string -> string -> option datetime.
Variable repr_other : value -> string.
Variable new_identifier : string -> DatasetIdentifier.

Abbreviation parse_json := (Release.parse_json strptime).
Abbreviation identifier := (Release.identifier repr_other new_identifier).

(** C1, the unavailable branch as the code runs it: with [download_url]
    null, a timestamp that parses and a [version] key, [parse_json] raises
    [TypeError], because the call of the constructor passes no [url]. *)
Theorem parse_json_without_url_raises (dataset_slug team_slug payload : value)
    (inserted_at : string) (export_date : datetime) (version : value) :
  Py.getitem payload "inserted_at" = Ok (VStr inserted_at) ->
  strptime inserted_at "%Y-%m-%dT%H:%M:%S%z" = Some export_date ->
  Py.getitem payload "download_url" = Ok VNone ->
  Py.getitem payload "version" = Ok version ->
  parse_json dataset_slug team_slug payload = Raise TypeError.
Proof.
  intros Hi Hd Hu Hv. unfold Release.parse_json.
  rewrite Hi. simpl. rewrite Hd. simpl. rewrite Hu. simpl. by rewrite Hv.
Qed.

(** The available branch of [parse_json]. *)
Lemma parse_json_available (dataset_slug team_slug payload : value)
    (inserted_at : string) (export_date : datetime)
    (download_url name metadata num_images annotation_classes count latest : value) :
  Py.getitem payload "inserted_at" = Ok (VStr inserted_at) ->
  strptime inserted_at "%Y-%m-%dT%H:%M:%S%z" = Some export_date ->
  Py.getitem payload "download_url" = Ok download_url ->
  download_url <> VNone ->
  Py.getitem payload "name" = Ok name ->
  Py.getitem payload "metadata" = Ok metadata ->
  Py.getitem metadata "num_images" = Ok num_images ->
  Py.getitem metadata "annotation_classes" = Ok annotation_classes ->
  Py.len annotation_classes = Ok count ->
  Py.getitem payload "latest" = Ok latest ->
  parse_json dataset_slug team_slug payload
  = Ok {| Release.dataset_slug := dataset_slug;
          Release.team_slug := team_slug;
          Release.version := name;
          Release.url := download_url;
          Release.export_date := export_date;
          Release.image_count := num_images;
          Release.class_count := count;
          Release.available := VBool true;
          Release.latest := latest |}.
Proof.
  intros Hi Hd Hu Hn Hname Hm Hni Hac Hlen Hl. unfold Release.parse_json.
  rewrite Hi. simpl. rewrite Hd. simpl. rewrite Hu. simpl.
  assert (Py.is_None download_url = false) as -> by (by destruct download_url).
  rewrite Hname. simpl. rewrite Hm. simpl. rewrite Hni. simpl. rewrite Hac. simpl.
  rewrite Hlen. simpl. by rewrite Hl.
Qed.

(** C9: for a release of team acme, dataset cats and version v2 the
    [identifier] property is the [DatasetIdentifier] of the exact string
    acme/cats:v2; for string fields it is always built from team slug, a
    slash, dataset slug, a colon and version, and it is computed from the
    fields at each read: after the version is assigned, it shows the new
    version. *)
Theorem identifier_format (r : Release.Release datetime) :
  (Release.team_slug r = VStr "acme" ->
   Release.dataset_slug r = VStr "cats" ->
   Release.version r = VStr "v2" ->
   Release.identifier_text repr_other r = "acme/cats:v2"
   /\ identifier r = new_identifier "acme/cats:v2") /\
  (forall team dataset version,
     Release.team_slug r = VStr team ->
     Release.dataset_slug r = VStr dataset ->
     Release.version r = VStr version ->
     identifier r = new_identifier (team +:+ "/" +:+ dataset +:+ ":" +:+ version)) /\
  (forall version,
     identifier (Release.set_version r (VStr version))
     = new_identifier (Py.str repr_other (Release.team_slug r) +:+ "/" +:+
                       Py.str repr_other (Release.dataset_slug r) +:+ ":" +:+ version)).
Proof.
  unfold Release.identifier, Release.identifier_text. split; [| split].
  - intros -> -> ->. by split.
  - intros team dataset version -> -> ->. reflexivity.
  - intros version. reflexivity.
Qed.

End Releases.

(** ** The statements on concrete inputs *)

Example equal_int_float : Py.equal (VInt 7) (VFloat 7.0%float) = true.
Proof. reflexivity. Qed.

Example equal_bool_int : Py.equal (VBool true) (VInt 1) = true.
Proof. reflexivity. Qed.

Example equal_int_half : Py.equal (VInt 0) (VFloat 0.5%float) = false.
Proof. reflexivity. Qed.

Example equal_str_int : Py.equal (VStr "7") (VInt 7) = false.
Proof. reflexivity. Qed.

Example equal_listing : Py.equal Demo.listing Demo.listing = true.
Proof. vm_compute. reflexivity. Qed.

Example str_negative : Py.str Demo.repr_other (VInt (-12)) = "-12".
Proof. vm_compute. reflexivity. Qed.

Example urljoin_api :
  Demo.urljoin (VStr "https://darwin.v7labs.com/api/") "/users/token_info"
  = "https://darwin.v7labs.com/api/users/token_info".
Proof. vm_compute. reflexivity. Qed.

Example parse_json_available_payload :
  Release.parse_json Demo.strptime (VStr "cats") (VStr "acme") Demo.available_payload
  = Ok Demo.release_v2.
Proof. vm_compute. reflexivity. Qed.

Lemma parse_json_without_url_raises_witness :
  Release.parse_json Demo.strptime (VStr "cats") (VStr "acme") Demo.unavailable_payload
  = Raise TypeError.
Proof.
  apply (parse_json_without_url_raises string Demo.strptime
           (VStr "cats") (VStr "acme") Demo.unavailable_payload
           "2020-01-01T00:00:00+0000" "2020-01-01T00:00:00+0000" (VStr "1.0"));
    vm_compute; reflexivity.
Defined.

Lemma identifier_format_witness :
  Release.identifier Demo.repr_other Demo.new_identifier Demo.release_v2
  = Demo.new_identifier "acme/cats:v2".
Proof.
  apply (identifier_format string Demo.repr_other Demo.new_identifier Demo.release_v2);
    reflexivity.
Defined.

Lemma acme_headers_built :
  Client._get_headers Demo.repr_other Demo.acme VNone = Ok Demo.acme_headers.
Proof. vm_compute. reflexivity. Qed.

Lemma unauthorized_on_401_witness :
  Client.get (Demo.answer (Demo.html 401)) Demo.urljoin Demo.repr_other
             Demo.acme "/datasets/" VNone true false
  = ([], Raise Unauthorized)
  /\ Client.put (Demo.answer (Demo.html 401)) Demo.urljoin Demo.repr_other
                Demo.acme "/datasets/1" (VDict ∅) VNone false
     = ([], Raise Unauthorized)
  /\ Client.post (Demo.answer (Demo.html 401)) Demo.urljoin Demo.repr_other
                 Demo.acme "/datasets" VNone VNone
                 (Some [Demo.name_taken; Demo.validation_error]) true
     = ([], Raise Unauthorized).
Proof.
  split; [| split].
  - apply (unauthorized_on_401 (Demo.answer (Demo.html 401)) Demo.urljoin
             Demo.repr_other Demo.acme "/datasets/" VNone VNone true false None
             Demo.acme_headers (Demo.html 401) acme_headers_built);
      reflexivity.
  - apply (unauthorized_on_401 (Demo.answer (Demo.html 401)) Demo.urljoin
             Demo.repr_other Demo.acme "/datasets/1" (VDict ∅) VNone true false None
             Demo.acme_headers (Demo.html 401) acme_headers_built);
      reflexivity.
  - apply (unauthorized_on_401 (Demo.answer (Demo.html 401)) Demo.urljoin
             Demo.repr_other Demo.acme "/datasets" VNone VNone true true
             (Some [Demo.name_taken; Demo.validation_error])
             Demo.acme_headers (Demo.html 401) acme_headers_built);
      reflexivity.
Defined.

(** The claim with [base_url] fails on the client [from_api_key] builds: the
    URL in the error is the API address joined with the endpoint. *)
Lemma not_found_base_url_counterexample :
  status_code (Demo.html 404) = 404
  /\ Client.get (Demo.answer (Demo.html 404)) Demo.urljoin Demo.repr_other
                Demo.acme "/datasets/" VNone false false
     = ([], Raise (NotFound (ResUrl "https://darwin.v7labs.com/api/datasets")))
  /\ Client.get (Demo.answer (Demo.html 404)) Demo.urljoin Demo.repr_other
                Demo.acme "/datasets/" VNone false false
     <> ([], Raise (NotFound (ResUrl (Demo.urljoin (Client.base_url Demo.acme)
                                                   "/datasets/")))).
Proof. split; [| split]; vm_compute; [reflexivity | reflexivity | discriminate]. Qed.

Lemma not_found_on_404_witness :
  Client.get (Demo.answer (Demo.html 404)) Demo.urljoin Demo.repr_other
             Demo.acme "/datasets/" VNone true false
  = ([], Raise (NotFound (ResUrl (Demo.urljoin (Client.url Demo.acme) "/datasets/")))).
Proof.
  apply (not_found_on_404 (Demo.answer (Demo.html 404)) Demo.urljoin Demo.repr_other
           Demo.acme "/datasets/" VNone true false Demo.acme_headers (Demo.html 404)
           acme_headers_built);
    reflexivity.
Defined.

(** The claim without the raw flag fails: a raw GET hands back the response
    itself, parseable or not. *)
Lemma not_json_raw_get_counterexample :
  json (Demo.html 502) = None
  /\ Client.get (Demo.answer (Demo.html 502)) Demo.urljoin Demo.repr_other
                Demo.acme "/datasets/" VNone true false
     = ([], Ok (Client.Raw (Demo.html 502)))
  /\ snd (Client.get (Demo.answer (Demo.html 502)) Demo.urljoin Demo.repr_other
                     Demo.acme "/datasets/" VNone true false)
     <> Ok (Client.Decoded (Client.not_json (Demo.html 502))).
Proof. split; [| split]; vm_compute; [reflexivity | reflexivity | discriminate]. Qed.

Lemma not_json_fallback_witness :
  snd (Client.get (Demo.answer (Demo.html 502)) Demo.urljoin Demo.repr_other
                  Demo.acme "/datasets/" VNone false true)
  = Ok (Client.Decoded (Client.not_json (Demo.html 502)))
  /\ snd (Client.put (Demo.answer (Demo.html 502)) Demo.urljoin Demo.repr_other
                     Demo.acme "/datasets/1" (VDict ∅) VNone true)
     = Ok (Client.not_json (Demo.html 502))
  /\ snd (Client.post (Demo.answer (Demo.html 502)) Demo.urljoin Demo.repr_other
                      Demo.acme "/datasets" VNone VNone None false)
     = Ok (Client.not_json (Demo.html 502)).
Proof.
  assert (H401 : status_code (Demo.html 502) <> 401) by discriminate.
  split; [| split].
  - apply (not_json_fallback (Demo.answer (Demo.html 502)) Demo.urljoin Demo.repr_other
             Demo.acme "/datasets/" VNone VNone true None Demo.acme_headers
             (Demo.html 502) acme_headers_built eq_refl H401);
      [reflexivity | discriminate].
  - apply (not_json_fallback (Demo.answer (Demo.html 502)) Demo.urljoin Demo.repr_other
             Demo.acme "/datasets/1" (VDict ∅) VNone true None Demo.acme_headers
             (Demo.html 502) acme_headers_built eq_refl H401);
      [reflexivity | discriminate].
  - apply (not_json_fallback (Demo.answer (Demo.html 502)) Demo.urljoin Demo.repr_other
             Demo.acme "/datasets" VNone VNone false None Demo.acme_headers
             (Demo.html 502) acme_headers_built eq_refl H401);
      [reflexivity | right; split; reflexivity].
Defined.

(** A PUT answered 429 with a body that is not JSON. *)
Example put_429_html_raises :
  Client.put (Demo.answer (Demo.html 429)) Demo.urljoin Demo.repr_other
             Demo.acme "/datasets/1" (VDict ∅) VNone false
  = ([], Raise ValueError).
Proof. vm_compute. reflexivity. Qed.

(** A POST answered 502 with a body that is not JSON and a handler registered. *)
Example post_502_html_raises :
  Client.post (Demo.answer (Demo.html 502)) Demo.urljoin Demo.repr_other
              Demo.acme "/datasets" VNone VNone (Some [Demo.name_taken]) false
  = ([], Raise ValueError).
Proof. vm_compute. reflexivity. Qed.

Lemma put_429_error_code_witness :
  Client.put (Demo.answer (Demo.json_response 429 Demo.storage_full)) Demo.urljoin
             Demo.repr_other Demo.acme "/datasets/1" (VDict ∅) VNone false
  = ([], Raise InsufficientStorage)
  /\ Client.put (Demo.answer (Demo.json_response 429 Demo.rate_limited)) Demo.urljoin
                Demo.repr_other Demo.acme "/datasets/1" (VDict ∅) VNone false
     = ([], Ok Demo.rate_limited).
Proof.
  split.
  - apply (put_429_error_code (Demo.answer (Demo.json_response 429 Demo.storage_full))
             Demo.urljoin Demo.repr_other Demo.acme "/datasets/1" (VDict ∅) VNone false
             Demo.acme_headers (Demo.json_response 429 Demo.storage_full)
             Demo.storage_full
             (VDict {["code" := VStr "INSUFFICIENT_REMAINING_STORAGE"]})
             (VStr "INSUFFICIENT_REMAINING_STORAGE") acme_headers_built);
      reflexivity.
  - apply (put_429_error_code (Demo.answer (Demo.json_response 429 Demo.rate_limited))
             Demo.urljoin Demo.repr_other Demo.acme "/datasets/1" (VDict ∅) VNone false
             Demo.acme_headers (Demo.json_response 429 Demo.rate_limited)
             Demo.rate_limited
             (VDict {["code" := VStr "RATE_LIMITED"]})
             (VStr "RATE_LIMITED") acme_headers_built);
      try reflexivity.
    discriminate.
Defined.

(** The claim at status 401, which is not 200: no handler is called. *)
Lemma post_401_handlers_counterexample :
  status_code (Demo.json_response 401 Demo.rate_limited) <> 200
  /\ Client.post (Demo.answer (Demo.json_response 401 Demo.rate_limited)) Demo.urljoin
                 Demo.repr_other Demo.acme "/datasets" VNone VNone
                 (Some [Demo.name_taken]) false
     = ([], Raise Unauthorized)
  /\ ~ In (Called 0 401 Demo.rate_limited)
          (fst (Client.post (Demo.answer (Demo.json_response 401 Demo.rate_limited))
                            Demo.urljoin Demo.repr_other Demo.acme "/datasets" VNone
                            VNone (Some [Demo.name_taken]) false)).
Proof.
  split; [| split]; vm_compute; [discriminate | reflexivity | tauto].
Qed.

Lemma post_error_handlers_witness :
  Client.post (Demo.answer (Demo.json_response 422 Demo.rate_limited)) Demo.urljoin
              Demo.repr_other Demo.acme "/datasets" VNone VNone
              (Some [Demo.validation_error; Demo.name_taken; Demo.validation_error])
              true
  = ([Called 0 422 Demo.rate_limited; Called 1 422 Demo.rate_limited], Raise NameTaken).
Proof.
  assert (H401 : status_code (Demo.json_response 422 Demo.rate_limited) <> 401)
    by discriminate.
  destruct (post_error_handlers
              (Demo.answer (Demo.json_response 422 Demo.rate_limited))
              Demo.urljoin Demo.repr_other Demo.acme "/datasets" VNone VNone true
              (Some [Demo.validation_error; Demo.name_taken; Demo.validation_error])
              Demo.acme_headers (Demo.json_response 422 Demo.rate_limited)
              acme_headers_built eq_refl H401) as [Hraise _].
  apply (Hraise Demo.rate_limited [Demo.validation_error] Demo.name_taken
                [Demo.validation_error] NameTaken).
  - discriminate.
  - reflexivity.
  - reflexivity.
  - by constructor.
  - reflexivity.
Defined.

Example post_422_all_return :
  Client.post (Demo.answer (Demo.json_response 422 Demo.rate_limited)) Demo.urljoin
              Demo.repr_other Demo.acme "/datasets" VNone VNone
              (Some [Demo.validation_error; Demo.validation_error]) false
  = ([Called 0 422 Demo.rate_limited; Called 1 422 Demo.rate_limited],
     Ok Demo.rate_limited).
Proof. vm_compute. reflexivity. Qed.

Lemma listing_read :
  Client.list_remote_datasets (Demo.answer (Demo.json_response 200 Demo.listing))
    Demo.urljoin Demo.repr_other Demo.acme (VStr "acme")
  = ([], Ok [Demo.remote 1 "Dogs" "dogs"; Demo.remote 2 "Cats" "cats";
             Demo.remote 3 "More cats" "cats"]).
Proof. vm_compute. reflexivity. Qed.

Lemma get_remote_dataset_first_match_witness :
  Client.get_remote_dataset (Demo.answer (Demo.json_response 200 Demo.listing))
    Demo.urljoin Demo.parse_slug Demo.repr_other Demo.acme (inl "cats")
  = ([], Ok (Demo.remote 2 "Cats" "cats"))
  /\ Client.get_remote_dataset (Demo.answer (Demo.json_response 200 Demo.listing))
       Demo.urljoin Demo.parse_slug Demo.repr_other Demo.acme
       (inr (mkDatasetIdentifier (VStr "acme") (VStr "birds") VNone))
     = ([], Raise (NotFound (ResIdentifier
                               (mkDatasetIdentifier (VStr "acme") (VStr "birds") VNone)))).
Proof.
  split.
  - destruct (get_remote_dataset_first_match
                (Demo.answer (Demo.json_response 200 Demo.listing))
                Demo.urljoin Demo.parse_slug Demo.repr_other Demo.acme (inl "cats")
                (mkDatasetIdentifier VNone (VStr "cats") VNone) [] _ eq_refl
                listing_read) as [_ Hfirst].
    apply (Hfirst [Demo.remote 1 "Dogs" "dogs"] (Demo.remote 2 "Cats" "cats")
                  [Demo.remote 3 "More cats" "cats"]).
    + reflexivity.
    + by constructor.
    + reflexivity.
  - apply (get_remote_dataset_first_match
             (Demo.answer (Demo.json_response 200 Demo.listing))
             Demo.urljoin Demo.parse_slug Demo.repr_other Demo.acme
             (inr (mkDatasetIdentifier (VStr "acme") (VStr "birds") VNone))
             (mkDatasetIdentifier (VStr "acme") (VStr "birds") VNone)
             [] _ eq_refl listing_read).
    by repeat constructor.
Defined.

Lemma from_api_key_default_team_witness :
  (exists client,
     Client.from_api_key (Demo.answer (Demo.json_response 200
                            (Demo.token_info 7 [Demo.team_entry 7 "acme"])))
       Demo.urljoin Demo.no_env "/home/u" "secret" None = Ok client
     /\ Client.default_team client = VStr "acme")
  /\ Client.from_api_key (Demo.answer (Demo.html 403)) Demo.urljoin Demo.no_env
       "/home/u" "secret" None
     = Raise InvalidLogin.
Proof.
  split.
  - destruct (from_api_key_default_team
                (Demo.answer (Demo.json_response 200
                   (Demo.token_info 7 [Demo.team_entry 7 "acme"])))
                Demo.urljoin Demo.no_env "/home/u" "secret" None _ eq_refl)
      as [_ Hteam].
    apply (Hteam (Demo.token_info 7 [Demo.team_entry 7 "acme"])
                 (VDict {["id" := VInt 7]}) (Demo.team_entry 7 "acme"));
      reflexivity.
  - apply (from_api_key_default_team (Demo.answer (Demo.html 403))
             Demo.urljoin Demo.no_env "/home/u" "secret" None _ eq_refl).
    discriminate.
Defined.

Example from_api_key_acme :
  Client.from_api_key (Demo.answer (Demo.json_response 200
                         (Demo.token_info 7 [Demo.team_entry 7 "acme"])))
    Demo.urljoin Demo.no_env "/home/u" "secret" None
  = Ok Demo.acme.
Proof. vm_compute. reflexivity. Qed.

Lemma from_api_key_no_matching_team_witness :
  Client.from_api_key (Demo.answer (Demo.json_response 200
                         (Demo.token_info 7 [Demo.team_entry 8 "other"])))
    Demo.urljoin Demo.no_env "/home/u" "secret" None
  = Raise IndexError
  /\ named_kind IndexError = false.
Proof.
  apply (from_api_key_no_matching_team
           (Demo.answer (Demo.json_response 200
              (Demo.token_info 7 [Demo.team_entry 8 "other"])))
           Demo.urljoin Demo.no_env "/home/u" "secret" None _
           (Demo.token_info 7 [Demo.team_entry 8 "other"])
           (VDict {["id" := VInt 7]}) (VInt 7) [Demo.team_entry 8 "other"]
           eq_refl eq_refl eq_refl);
    try reflexivity.
  constructor; [| constructor]. exists (VInt 8). by split.
Defined.

(** * Further properties *)

(** ** Releases *)

Section ReleaseParsing.
Variable datetime : Type.
Variable strptime : string -> string -> option datetime.
Variable repr_other : value -> string.

Abbreviation parse_json := (Release.parse_json strptime).

Lemma len_is_count (v count : value) :
  Py.len v = Ok count -> exists n, count = VInt n /\ 0 <= n.
Proof.
  destruct v; simpl; intros [=]; subst; eexists; split; try reflexivity; lia.
Qed.

(** X1: every release [parse_json] returns is an available one: its flag is
    [True], its [url] is the payload's [download_url] and is not [None], its
    version is the payload's [name], its counts come from [metadata] and its
    slugs are the ones passed in.  A payload whose [download_url] is null
    never gives a release. *)
Theorem parse_json_returns_available (dataset_slug team_slug payload : value)
    (r : Release.Release datetime) :
  parse_json dataset_slug team_slug payload = Ok r ->
  Release.available r = VBool true
  /\ Release.dataset_slug r = dataset_slug
  /\ Release.team_slug r = team_slug
  /\ Py.getitem payload "download_url" = Ok (Release.url r)
  /\ Release.url r <> VNone
  /\ Py.getitem payload "name" = Ok (Release.version r)
  /\ Py.getitem payload "latest" = Ok (Release.latest r)
  /\ (exists n, Release.class_count r = VInt n /\ 0 <= n)
  /\ (exists metadata annotation_classes,
        Py.getitem payload "metadata" = Ok metadata
        /\ Py.getitem metadata "num_images" = Ok (Release.image_count r)
        /\ Py.getitem metadata "annotation_classes" = Ok annotation_classes
        /\ Py.len annotation_classes = Ok (Release.class_count r))
  /\ (exists inserted_at,
        Py.getitem payload "inserted_at" = Ok (VStr inserted_at)
        /\ strptime inserted_at "%Y-%m-%dT%H:%M:%S%z" = Some (Release.export_date r)).
Proof.
  unfold Release.parse_json.
  destruct (Py.getitem payload "inserted_at") as [inserted_at |] eqn:Hi; [| done].
  simpl. destruct inserted_at as [| | | | text | |]; try done.
  simpl. destruct (strptime text _) as [date |] eqn:Hd; [| done].
  simpl. destruct (Py.getitem payload "download_url") as [download_url |] eqn:Hu; [| done].
  simpl. destruct (Py.is_None download_url) eqn:Hnone.
  { destruct (Py.getitem payload "version"); done. }
  destruct (Py.getitem payload "name") as [name |] eqn:Hn; [| done].
  simpl. destruct (Py.getitem payload "metadata") as [metadata |] eqn:Hm; [| done].
  simpl. destruct (Py.getitem metadata "num_images") as [num_images |] eqn:Hni; [| done].
  simpl. destruct (Py.getitem metadata "annotation_classes") as [classes |] eqn:Hac;
    [| done].
  simpl. destruct (Py.len classes) as [count |] eqn:Hlen; [| done].
  simpl. destruct (Py.getitem payload "latest") as [latest |] eqn:Hl; [| done].
  simpl. intros [= <-]. simpl.
  repeat split; try done.
  - by destruct download_url.
  - by apply (len_is_count classes).
  - by exists metadata, classes.
  - by exists text.
Qed.

(** X2: the timestamp is read before anything else.  A payload that is not
    a dictionary or whose [inserted_at] is not a string raises [TypeError],
    one without [inserted_at] raises [KeyError], one whose [inserted_at]
    does not match the format raises [ValueError], whatever else the payload
    holds. *)
Theorem parse_json_timestamp_first (dataset_slug team_slug payload : value) :
  ((forall d, payload <> VDict d) ->
   parse_json dataset_slug team_slug payload = Raise TypeError) /\
  (forall d, payload = VDict d -> d !! "inserted_at" = None ->
   parse_json dataset_slug team_slug payload = Raise (KeyError "inserted_at")) /\
  (forall v, Py.getitem payload "inserted_at" = Ok v -> (forall s, v <> VStr s) ->
   parse_json dataset_slug team_slug payload = Raise TypeError) /\
  (forall s, Py.getitem payload "inserted_at" = Ok (VStr s) ->
   strptime s "%Y-%m-%dT%H:%M:%S%z" = None ->
   parse_json dataset_slug team_slug payload = Raise ValueError).
Proof.
  unfold Release.parse_json. repeat split.
  - intros Hnd. destruct payload; try done. by destruct (Hnd d).
  - intros d -> Hd. simpl. by rewrite Hd.
  - intros v -> Hns. simpl. destruct v; try done. by destruct (Hns s).
  - intros s -> Hs. simpl. by rewrite Hs.
Qed.

Lemma append_split_unique (c : ascii) (s1 r1 s2 r2 : string) :
  ~ In c (list_ascii_of_string s1) ->
  ~ In c (list_ascii_of_string s2) ->
  s1 +:+ String c r1 = s2 +:+ String c r2 ->
  s1 = s2 /\ r1 = r2.
Proof using Type.
  revert s2. induction s1 as [| a s1 IH]; intros [| b s2] H1 H2; simpl in *.
  - by intros [= ->].
  - intros [= -> _]. destruct H2. by left.
  - intros [= -> _]. destruct H1. by left.
  - intros [= -> Heq].
    destruct (IH s2) as [-> ->];
      [intros Hin; apply H1; by right | intros Hin; apply H2; by right | done | done].
Qed.

(** X3: the text of the identifier determines team slug, dataset slug and
    version, as long as no team slug holds a slash and no dataset slug a
    colon. *)
Theorem identifier_text_injective (r1 r2 : Release.Release datetime)
    (team1 dataset1 version1 team2 dataset2 version2 : string) :
  Release.team_slug r1 = VStr team1 ->
  Release.dataset_slug r1 = VStr dataset1 ->
  Release.version r1 = VStr version1 ->
  Release.team_slug r2 = VStr team2 ->
  Release.dataset_slug r2 = VStr dataset2 ->
  Release.version r2 = VStr version2 ->
  ~ In "/"%char (list_ascii_of_string team1) ->
  ~ In "/"%char (list_ascii_of_string team2) ->
  ~ In ":"%char (list_ascii_of_string dataset1) ->
  ~ In ":"%char (list_ascii_of_string dataset2) ->
  Release.identifier_text repr_other r1 = Release.identifier_text repr_other r2 ->
  team1 = team2 /\ dataset1 = dataset2 /\ version1 = version2.
Proof using Type.
  intros Ht1 Hd1 Hv1 Ht2 Hd2 Hv2 Hs1 Hs2 Hc1 Hc2.
  unfold Release.identifier_text. rewrite Ht1, Hd1, Hv1, Ht2, Hd2, Hv2. simpl.
  intros Heq.
  destruct (append_split_unique "/" team1 _ team2 _ Hs1 Hs2 Heq) as [-> Hrest].
  destruct (append_split_unique ":" dataset1 _ dataset2 _ Hc1 Hc2 Hrest) as [-> ->].
  done.
Qed.

End ReleaseParsing.

(** ** The request mediator: headers, pass-through and what can be raised *)

Section MediatorEdges.
Context {Config : Type} `{ConfigStore Config}.
Variable requests : Request -> result Response.
Variable urljoin : value -> string -> string.
Variable repr_other : value -> string.

Abbreviation Client := (@Client.Client Config).
Abbreviation get := (Client.get requests urljoin repr_other).
Abbreviation put := (Client.put requests urljoin repr_other).
Abbreviation post := (Client.post requests urljoin repr_other).
Abbreviation _get_headers := (Client._get_headers repr_other).
Abbreviation get_request := (Client.get_request urljoin).
Abbreviation put_request := (Client.put_request urljoin).
Abbreviation post_request := (Client.post_request urljoin).

(** X4: when the team's configuration is found, the headers always hold
    [Content-Type: application/json], hold [Authorization: ApiKey <key>]
    exactly when the configuration has an [api_key] that is not [None], and
    hold nothing else; a missing key is no error. *)
Theorem get_headers_shape (self : Client) (team : value)
    (team_config : gmap string value) :
  config_get_team (Client.config self) (Py.or_ team (Client.default_team self))
  = Ok team_config ->
  exists headers,
    _get_headers self team = Ok headers
    /\ headers !! "Content-Type" = Some "application/json"
    /\ (forall key, team_config !! "api_key" = Some key -> key <> VNone ->
        headers !! "Authorization" = Some ("ApiKey " +:+ Py.str repr_other key))
    /\ (team_config !! "api_key" = None \/ team_config !! "api_key" = Some VNone ->
        headers !! "Authorization" = None)
    /\ (forall name, name <> "Content-Type" -> name <> "Authorization" ->
        headers !! name = None).
Proof.
  intros Ht. unfold Client._get_headers. rewrite Ht. simpl.
  destruct (team_config !! "api_key") as [key |] eqn:Hk; simpl.
  - destruct (Py.is_None key) eqn:Hnone.
    + eexists. split; [reflexivity |]. destruct key; try done.
      repeat split.
      * intros key [= <-] Hne. done.
      * intros name H1 H2. by rewrite lookup_singleton_ne.
    + eexists. split; [reflexivity |]. repeat split.
      * intros key' [= <-] _. by rewrite lookup_insert_eq.
      * intros [Hx | [= ->]]; done.
      * intros name H1 H2. rewrite lookup_insert_ne by done.
        by rewrite lookup_singleton_ne.
  - eexists. split; [reflexivity |]. repeat split.
    + intros key [=].
    + intros name H1 H2. by rewrite lookup_singleton_ne.
Qed.

Lemma decode_returns (response : Response) (debug : bool) :
  exists body, snd (Client._decode_response response debug) = Ok body.
Proof.
  unfold Client._decode_response.
  destruct (json response); [by eexists |]. destruct debug; by eexists.
Qed.

(** X5: GET raises nothing but [Unauthorized], on status 401, and
    [NotFound] with the request URL, on status 404; on every other status
    it returns. *)
Theorem get_raises_only (self : Client) (endpoint : string) (team : value)
    (raw debug : bool) (headers : gmap string string) (response : Response) :
  _get_headers self team = Ok headers ->
  requests (get_request self endpoint headers) = Ok response ->
  (forall e, snd (get self endpoint team raw debug) = Raise e ->
     (status_code response = 401 /\ e = Unauthorized)
     \/ (status_code response = 404
         /\ e = NotFound (ResUrl (urljoin (Client.url self) endpoint))))
  /\ (status_code response <> 401 -> status_code response <> 404 ->
      exists answer, snd (get self endpoint team raw debug) = Ok answer).
Proof.
  intros Hh Hr. unfold Client.get. rewrite Hh. simpl.
  unfold Client.get_request in Hr. rewrite Hr. simpl.
  destruct (decode_returns response debug) as [body Hbody].
  destruct (Client._decode_response response debug) as [log r]. simpl in Hbody.
  subst r. split.
  - intros e. destruct (status_code response =? 401) eqn:H401.
    { intros [= <-]. left. split; [by apply Z.eqb_eq | done]. }
    destruct (status_code response =? 404) eqn:H404.
    { intros [= <-]. right. split; [by apply Z.eqb_eq | done]. }
    by destruct raw.
  - intros H401 H404. apply Z.eqb_neq in H401, H404. rewrite H401, H404.
    destruct raw; by eexists.
Qed.

(** X6: a raw GET on a status other than 401 and 404 returns the response
    object itself and logs nothing: the body is not decoded, the response is
    not closed, and nothing is printed even under [debug]. *)
Theorem get_raw_returns_response (self : Client) (endpoint : string) (team : value)
    (debug : bool) (headers : gmap string string) (response : Response) :
  _get_headers self team = Ok headers ->
  requests (get_request self endpoint headers) = Ok response ->
  status_code response <> 401 ->
  status_code response <> 404 ->
  get self endpoint team true debug = ([], Ok (Client.Raw response)).
Proof.
  intros Hh Hr H401 H404. apply Z.eqb_neq in H401, H404.
  unfold Client.get. rewrite Hh. simpl.
  unfold Client.get_request in Hr. rewrite Hr. simpl. by rewrite H401, H404.
Qed.

(** X7: PUT raises [Unauthorized] on status 401 and can raise otherwise only
    on status 429, and then only [InsufficientStorage] or the error of
    reading [errors.code] off the body ([ValueError], [TypeError] or
    [KeyError]); on every status other than 401 and 429 it returns. *)
Theorem put_raises_only (self : Client) (endpoint : string) (payload team : value)
    (debug : bool) (headers : gmap string string) (response : Response) :
  _get_headers self team = Ok headers ->
  requests (put_request self endpoint payload headers) = Ok response ->
  (forall e, snd (put self endpoint payload team debug) = Raise e ->
     (status_code response = 401 /\ e = Unauthorized)
     \/ (status_code response = 429
         /\ (e = InsufficientStorage \/ e = ValueError \/ e = TypeError
             \/ e = KeyError "errors" \/ e = KeyError "code")))
  /\ (status_code response <> 401 -> status_code response <> 429 ->
      exists body, snd (put self endpoint payload team debug) = Ok body).
Proof.
  intros Hh Hr. unfold Client.put. rewrite Hh. simpl.
  unfold Client.put_request in Hr. rewrite Hr. simpl.
  destruct (decode_returns response debug) as [body Hbody].
  destruct (status_code response =? 401) eqn:H401.
  { split.
    - intros e [= <-]. left. split; [by apply Z.eqb_eq | done].
    - intros Hne. by apply Z.eqb_eq in H401. }
  destruct (status_code response =? 429) eqn:H429.
  - split; [| intros _ Hne; by apply Z.eqb_eq in H429].
    intros e He. right. split; [by apply Z.eqb_eq |].
    unfold Client.call_json in He.
    destruct (json response) as [decoded |]; [| simpl in He; naive_solver].
    simpl in He. destruct decoded as [| | | | | | d]; simpl in He; try naive_solver.
    destruct (d !! "errors") as [errors |]; simpl in He; [| naive_solver].
    destruct errors as [| | | | | | d']; simpl in He; try naive_solver.
    destruct (d' !! "code") as [code |]; simpl in He; [| naive_solver].
    destruct (Py.equal code _); simpl in He; [naive_solver |].
    destruct (Client._decode_response response debug) as [log r].
    simpl in *. subst r. done.
  - destruct (Client._decode_response response debug) as [log r].
    simpl in *. subst r. split; [done |]. intros _ _. by eexists.
Qed.

(** What the handler loop can raise: the decoding error, or the error of
    one of the handlers. *)
Lemma run_handlers_raises (response : Response)
    (error_handlers : list ErrorHandlerType) (i : nat) (e : exn) :
  snd (Client.run_handlers i error_handlers response) = Raise e ->
  (json response = None /\ e = ValueError)
  \/ (exists handler body,
        In handler error_handlers
        /\ json response = Some body
        /\ handler (status_code response) body = Raise e).
Proof.
  revert i. induction error_handlers as [| handler rest IH]; intros i; [done |].
  simpl. unfold Client.call_json.
  destruct (json response) as [body |] eqn:Hj; simpl; [| intros [= <-]; by left].
  destruct (handler (status_code response) body) as [[] | e'] eqn:Hh; simpl.
  - destruct (Client.run_handlers (S i) rest response) as [log r] eqn:Hrest.
    simpl. intros ->.
    destruct (IH (S i)) as [[? ?] | (h & b & Hin & Hb & Hr)];
      [by rewrite Hrest | done | ].
    right. exists h, b. repeat split; [by right | done | done].
  - intros [= <-]. right. exists handler, body. repeat split; [by left | done].
Qed.

(** X8: POST raises [Unauthorized] on status 401; otherwise it can raise
    only on a status other than 200, and then only [ValueError], when the
    body does not decode, or what one of the registered handlers raised on
    the status and the decoded body.  On status 200 it returns. *)
Theorem post_raises_only (self : Client) (endpoint : string) (payload team : value)
    (debug : bool) (error_handlers : option (list ErrorHandlerType))
    (headers : gmap string string) (response : Response) :
  _get_headers self team = Ok headers ->
  requests (post_request self endpoint payload headers) = Ok response ->
  (forall e, snd (post self endpoint payload team error_handlers debug) = Raise e ->
     (status_code response = 401 /\ e = Unauthorized)
     \/ (status_code response <> 200
         /\ ((json response = None /\ e = ValueError)
             \/ (exists handler body,
                   In handler (default [] error_handlers)
                   /\ json response = Some body
                   /\ handler (status_code response) body = Raise e))))
  /\ (status_code response = 200 ->
      exists body, snd (post self endpoint payload team error_handlers debug) = Ok body).
Proof.
  intros Hh Hr.
  destruct (decode_returns response debug) as [body Hbody].
  destruct (Z.eq_dec (status_code response) 401) as [H401 | H401].
  { split.
    - intros e. unfold Client.post. rewrite Hh. simpl.
      unfold Client.post_request in Hr. rewrite Hr. simpl. rewrite H401. simpl.
      intros [= <-]. by left.
    - intros H200. lia. }
  rewrite (post_answered requests urljoin repr_other self endpoint payload team debug
             error_handlers headers response Hh Hr H401).
  destruct (status_code response =? 200) eqn:H200; simpl.
  - destruct (Client._decode_response response debug) as [log r].
    simpl in *. subst r. split; [done |]. intros _. by eexists.
  - split; [| intros Heq; by apply Z.eqb_neq in H200].
    intros e He. right. split; [by apply Z.eqb_neq |].
    destruct (Client.run_handlers 0 (default [] error_handlers) response)
      as [log [[] | e']] eqn:Hrun; simpl in He.
    + unfold Client.call_json in He.
      destruct debug; simpl in He.
      * destruct (json response) as [decoded |] eqn:Hj; simpl in He.
        -- destruct (Client._decode_response response true) as [log' r].
           simpl in *. subst r. done.
        -- injection He as <-. by left.
      * destruct (Client._decode_response response false) as [log' r].
        simpl in *. subst r. done.
    + injection He as <-.
      apply (run_handlers_raises response (default [] error_handlers) 0 e').
      by rewrite Hrun.
Qed.

(** X9: a body that decodes is handed back unchanged, with nothing logged,
    whatever the status: by GET without the raw flag on a status other than
    401 and 404, by PUT on a status other than 401 and 429, by POST on
    status 200.  A 500 with a JSON body is returned like a success. *)
Theorem json_body_passes_through (self : Client) (endpoint : string)
    (payload team : value) (debug : bool)
    (error_handlers : option (list ErrorHandlerType))
    (headers : gmap string string) (response : Response) (body : value) :
  _get_headers self team = Ok headers ->
  json response = Some body ->
  status_code response <> 401 ->
  (requests (get_request self endpoint headers) = Ok response ->
   status_code response <> 404 ->
   get self endpoint team false debug = ([], Ok (Client.Decoded body))) /\
  (requests (put_request self endpoint payload headers) = Ok response ->
   status_code response <> 429 ->
   put self endpoint payload team debug = ([], Ok body)) /\
  (requests (post_request self endpoint payload headers) = Ok response ->
   status_code response = 200 ->
   post self endpoint payload team error_handlers debug = ([], Ok body)).
Proof.
  intros Hh Hj H401. apply Z.eqb_neq in H401. split; [| split].
  - intros Hr H404. apply Z.eqb_neq in H404.
    unfold Client.get. rewrite Hh. simpl. unfold Client.get_request in Hr.
    rewrite Hr. simpl. rewrite H401, H404.
    by rewrite (decode_json response debug body Hj).
  - intros Hr H429. apply Z.eqb_neq in H429.
    unfold Client.put. rewrite Hh. simpl. unfold Client.put_request in Hr.
    rewrite Hr. simpl. rewrite H401, H429. simpl.
    by rewrite (decode_json response debug body Hj).
  - intros Hr H200.
    unfold Client.post. rewrite Hh. simpl. unfold Client.post_request in Hr.
    rewrite Hr. simpl. rewrite H401, H200. simpl.
    by rewrite (decode_json response debug body Hj).
Qed.

(** X10: on status 429 PUT reads [errors.code] off the body with no guard:
    a body that does not decode raises [ValueError], and a body from which
    [errors] or [errors.code] cannot be read raises the error of that read
    ([KeyError] for a missing key, [TypeError] where the value is not a
    dictionary), before anything is logged. *)
Theorem put_429_malformed (self : Client) (endpoint : string) (payload team : value)
    (debug : bool) (headers : gmap string string) (response : Response) :
  _get_headers self team = Ok headers ->
  requests (put_request self endpoint payload headers) = Ok response ->
  status_code response = 429 ->
  (json response = None ->
   put self endpoint payload team debug = ([], Raise ValueError)) /\
  (forall body e, json response = Some body ->
   Py.getitem body "errors" = Raise e ->
   put self endpoint payload team debug = ([], Raise e)) /\
  (forall body errors e, json response = Some body ->
   Py.getitem body "errors" = Ok errors ->
   Py.getitem errors "code" = Raise e ->
   put self endpoint payload team debug = ([], Raise e)).
Proof.
  intros Hh Hr Hs. unfold Client.put. rewrite Hh. simpl.
  unfold Client.put_request in Hr. rewrite Hr. simpl. rewrite Hs. simpl.
  unfold Client.call_json. split; [| split].
  - by intros ->.
  - intros body e -> He. simpl. by rewrite He.
  - intros body errors e -> Herr He. simpl. rewrite Herr. simpl. by rewrite He.
Qed.

(** X11: on a status other than 200 and 401, a body that does not decode
    makes POST raise [ValueError] as soon as a handler is registered or
    [debug] is on; no handler is called and the response is not closed. *)
Theorem post_not_json_raises (self : Client) (endpoint : string) (payload team : value)
    (debug : bool) (error_handlers : option (list ErrorHandlerType))
    (headers : gmap string string) (response : Response) :
  _get_headers self team = Ok headers ->
  requests (post_request self endpoint payload headers) = Ok response ->
  status_code response <> 401 ->
  status_code response <> 200 ->
  json response = None ->
  default [] error_handlers <> [] \/ debug = true ->
  post self endpoint payload team error_handlers debug = ([], Raise ValueError).
Proof.
  intros Hh Hr H401 H200 Hj Hcase.
  rewrite (post_answered requests urljoin repr_other self endpoint payload team debug
             error_handlers headers response Hh Hr H401).
  apply Z.eqb_neq in H200. rewrite H200. simpl.
  destruct (default [] error_handlers) as [| handler rest].
  - destruct Hcase as [Hne | ->]; [done |].
    simpl. unfold Client.call_json. by rewrite Hj.
  - simpl. unfold Client.call_json. by rewrite Hj.
Qed.

(** X12: a failure of a collaborator comes out unchanged and before
    anything is logged: when [get_team] raises, or when the transport
    raises, GET, PUT and POST raise the same error. *)
Theorem collaborator_errors_propagate (self : Client) (endpoint : string)
    (payload team : value) (raw debug : bool)
    (error_handlers : option (list ErrorHandlerType)) (e : exn) :
  (config_get_team (Client.config self) (Py.or_ team (Client.default_team self))
   = Raise e ->
   get self endpoint team raw debug = ([], Raise e)
   /\ put self endpoint payload team debug = ([], Raise e)
   /\ post self endpoint payload team error_handlers debug = ([], Raise e)) /\
  (forall headers, _get_headers self team = Ok headers ->
   (requests (get_request self endpoint headers) = Raise e ->
    get self endpoint team raw debug = ([], Raise e))
   /\ (requests (put_request self endpoint payload headers) = Raise e ->
       put self endpoint payload team debug = ([], Raise e))
   /\ (requests (post_request self endpoint payload headers) = Raise e ->
       post self endpoint payload team error_handlers debug = ([], Raise e))).
Proof.
  split.
  - intros Ht.
    assert (Hh : _get_headers self team = Raise e)
      by (unfold Client._get_headers; by rewrite Ht).
    unfold Client.get, Client.put, Client.post. by rewrite Hh.
  - intros headers Hh. unfold Client.get, Client.put, Client.post. rewrite Hh.
    unfold Client.get_request, Client.put_request, Client.post_request.
    repeat split; intros Hr; simpl; by rewrite Hr.
Qed.

End MediatorEdges.

(** ** The client facade: listings, lookups and dataset creation *)

Section FacadeEdges.
Context {Config : Type} `{ConfigStore Config}.
Variable requests : Request -> result Response.
Variable urljoin : value -> string -> string.
Variable parse : string -> result DatasetIdentifier.
Variable repr_other : value -> string.
Variable name_taken : ErrorHandlerType.
Variable validation_error : ErrorHandlerType.

Abbreviation Client := (@Client.Client Config).
Abbreviation _get_headers := (Client._get_headers repr_other).
Abbreviation get_request := (Client.get_request urljoin).
Abbreviation post_request := (Client.post_request urljoin).
Abbreviation list_remote_datasets := (Client.list_remote_datasets requests urljoin repr_other).
Abbreviation get_remote_dataset := (Client.get_remote_dataset requests urljoin parse repr_other).
Abbreviation create_dataset :=
  (Client.create_dataset requests urljoin repr_other name_taken validation_error).

(** [list_remote_datasets] once the listing request is answered with a
    body that decodes. *)
Lemma list_remote_datasets_answered (self : Client) (team : value)
    (headers : gmap string string) (response : Response) (listing : value) :
  _get_headers self team = Ok headers ->
  requests (get_request self "/datasets/" headers) = Ok response ->
  status_code response <> 401 ->
  status_code response <> 404 ->
  json response = Some listing ->
  list_remote_datasets self team
  = lift (datasets ← Py.iter listing; mapM (Client.remote_dataset_of self team) datasets).
Proof.
  intros Hh Hr H401 H404 Hj. apply Z.eqb_neq in H401, H404.
  unfold Client.list_remote_datasets, Client.get. rewrite Hh. simpl.
  unfold Client.get_request in Hr. rewrite Hr. simpl. rewrite H401, H404.
  rewrite (decode_json response false listing Hj). simpl.
  destruct (Py.iter listing) as [items |]; simpl; [| done].
  by destruct (mapM _ items).
Qed.

Lemma mapM_cons {A B} (f : A -> result B) (x : A) (l : list A) :
  mapM f (x :: l) = (y ← f x; k ← mapM f l; Ok (y :: k)).
Proof. reflexivity. Qed.

(** What one step of the generator gives. *)
Lemma remote_dataset_of_entry (self : Client) (team entry : value)
    (dataset : Client.RemoteDataset) :
  Client.remote_dataset_of self team entry = Ok dataset ->
  Py.getitem entry "name" = Ok (Client.name dataset)
  /\ Py.getitem entry "slug" = Ok (Client.slug dataset)
  /\ Py.getitem entry "id" = Ok (Client.dataset_id dataset)
  /\ Py.getitem entry "num_images" = Ok (Client.image_count dataset)
  /\ Py.getitem entry "progress" = Ok (Client.progress dataset)
  /\ Client.team dataset = Py.or_ team (Client.default_team self)
  /\ Client.client dataset = self.
Proof.
  unfold Client.remote_dataset_of.
  destruct (Py.getitem entry "name") as [n |]; [| done]. simpl.
  destruct (Py.getitem entry "slug") as [s |]; [| done]. simpl.
  destruct (Py.getitem entry "id") as [i |]; [| done]. simpl.
  destruct (Py.getitem entry "num_images") as [c |]; [| done]. simpl.
  destruct (Py.getitem entry "progress") as [p |]; [| done]. simpl.
  by intros [= <-].
Qed.

Lemma mapM_Forall2 {A B} (f : A -> result B) (l : list A) (k : list B) :
  mapM f l = Ok k -> Forall2 (fun x y => f x = Ok y) l k.
Proof.
  revert k. induction l as [| x l IH]; intros k.
  - intros [= <-]. constructor.
  - rewrite mapM_cons. destruct (f x) as [y |] eqn:Hx; [| done]. simpl.
    destruct (mapM f l) as [k' |]; [| done]. simpl.
    intros [= <-]. constructor; [done |]. by apply IH.
Qed.

(** X13: from a listing that is a JSON list, [list_remote_datasets] gives
    one dataset per entry, in the order of the listing; each has the
    [name], [slug], [id], [num_images] and [progress] of its entry, the
    team asked for (the default team when none is given) and the client
    itself.  It succeeds as soon as every entry has the five keys. *)
Theorem list_remote_datasets_in_order (self : Client) (team : value)
    (headers : gmap string string) (response : Response) (entries : list value) :
  _get_headers self team = Ok headers ->
  requests (get_request self "/datasets/" headers) = Ok response ->
  status_code response <> 401 ->
  status_code response <> 404 ->
  json response = Some (VList entries) ->
  (forall log datasets,
     list_remote_datasets self team = (log, Ok datasets) ->
     log = []
     /\ Forall2 (fun entry dataset =>
                   Py.getitem entry "name" = Ok (Client.name dataset)
                   /\ Py.getitem entry "slug" = Ok (Client.slug dataset)
                   /\ Py.getitem entry "id" = Ok (Client.dataset_id dataset)
                   /\ Py.getitem entry "num_images" = Ok (Client.image_count dataset)
                   /\ Py.getitem entry "progress" = Ok (Client.progress dataset)
                   /\ Client.team dataset = Py.or_ team (Client.default_team self)
                   /\ Client.client dataset = self)
                entries datasets) /\
  (Forall (fun entry =>
             exists d, entry = VDict d
                       /\ is_Some (d !! "name") /\ is_Some (d !! "slug")
                       /\ is_Some (d !! "id") /\ is_Some (d !! "num_images")
                       /\ is_Some (d !! "progress")) entries ->
   exists datasets, list_remote_datasets self team = ([], Ok datasets)).
Proof.
  intros Hh Hr H401 H404 Hj.
  rewrite (list_remote_datasets_answered self team headers response (VList entries)
             Hh Hr H401 H404 Hj).
  clear Hj. simpl. unfold lift. split.
  - intros log datasets [= <- Hm]. split; [done |].
    apply mapM_Forall2 in Hm.
    eapply Forall2_impl; [exact Hm |].
    intros entry dataset. apply remote_dataset_of_entry.
  - intros Hall. induction Hall as [| entry entries Hentry _ [datasets IH]].
    + by eexists.
    + destruct Hentry as (d & -> & [n Hn] & [s Hs] & [i Hi] & [c Hc] & [p Hp]).
      injection IH as IH. rewrite mapM_cons, IH.
      unfold Client.remote_dataset_of. simpl. rewrite Hn, Hs, Hi, Hc, Hp. simpl.
      by eexists.
Qed.

(** X14: when the listing request is answered with a body that does not
    decode, on a status other than 401 and 404, [list_remote_datasets]
    raises [TypeError]: it walks over the keys of the synthesized mapping
    and indexes the first of them with a string. *)
Theorem list_remote_datasets_not_json (self : Client) (team : value)
    (headers : gmap string string) (response : Response) :
  _get_headers self team = Ok headers ->
  requests (get_request self "/datasets/" headers) = Ok response ->
  status_code response <> 401 ->
  status_code response <> 404 ->
  json response = None ->
  list_remote_datasets self team = ([Closed], Raise TypeError).
Proof.
  intros Hh Hr H401 H404 Hj. apply Z.eqb_neq in H401, H404.
  unfold Client.list_remote_datasets, Client.get. rewrite Hh. simpl.
  unfold Client.get_request in Hr. rewrite Hr. simpl. rewrite H401, H404.
  unfold Client._decode_response. rewrite Hj. simpl.
  destruct (map_to_list _) as [| [key v] rest] eqn:Hl.
  - apply map_to_list_empty_iff in Hl. by apply insert_non_empty in Hl.
  - reflexivity.
Qed.

(** X15: when the listing request itself is refused, the lookup raises what
    the mediator raises: [Unauthorized] on 401, and on 404 a [NotFound]
    that carries the URL of the listing, not the identifier looked up. *)
Theorem get_remote_dataset_listing_refused (self : Client)
    (dataset_identifier : string + DatasetIdentifier) (parsed : DatasetIdentifier)
    (headers : gmap string string) (response : Response) :
  Client.as_identifier parse dataset_identifier = Ok parsed ->
  _get_headers self (di_team_slug (Client.with_default_team self parsed)) = Ok headers ->
  requests (get_request self "/datasets/" headers) = Ok response ->
  (status_code response = 401 ->
   get_remote_dataset self dataset_identifier = ([], Raise Unauthorized)) /\
  (status_code response = 404 ->
   get_remote_dataset self dataset_identifier
   = ([], Raise (NotFound (ResUrl (urljoin (Client.url self) "/datasets/"))))).
Proof.
  intros Hp Hh Hr. unfold Client.get_remote_dataset.
  rewrite Hp, bind_lift_ok.
  unfold Client.list_remote_datasets, Client.get. rewrite Hh. simpl.
  unfold Client.get_request in Hr. rewrite Hr. simpl.
  split; intros ->; reflexivity.
Qed.

(** X16: a dataset the lookup returns is one of the listing, and its slug
    equals the identifier's dataset slug. *)
Theorem get_remote_dataset_sound (self : Client)
    (dataset_identifier : string + DatasetIdentifier) (parsed : DatasetIdentifier)
    (log : list event) (dataset : Client.RemoteDataset) :
  Client.as_identifier parse dataset_identifier = Ok parsed ->
  get_remote_dataset self dataset_identifier = (log, Ok dataset) ->
  exists datasets,
    list_remote_datasets self (di_team_slug (Client.with_default_team self parsed))
    = (log, Ok datasets)
    /\ In dataset datasets
    /\ Py.equal (Client.slug dataset)
                (di_dataset_slug (Client.with_default_team self parsed)) = true.
Proof.
  intros Hp. unfold Client.get_remote_dataset. rewrite Hp, bind_lift_ok.
  destruct (list_remote_datasets self _) as [log' [datasets | e]]; [| done].
  unfold mbind, io_bind.
  destruct (List.filter _ datasets) as [| first others] eqn:Hf; [done |].
  simpl. rewrite app_nil_r. intros [= <- <-].
  assert (Hin : In first (List.filter
                   (Client.slug_matches (Client.with_default_team self parsed))
                   datasets)) by (rewrite Hf; by left).
  apply List.filter_In in Hin as [Hin Hm].
  by exists datasets.
Qed.

Lemma mapM_raise {A B} (f : A -> result B) (before : list A) (bad : A)
    (rest : list A) (e : exn) :
  Forall (fun x => exists y, f x = Ok y) before ->
  f bad = Raise e ->
  mapM f (before ++ bad :: rest) = Raise e.
Proof.
  intros Hb He. induction Hb as [| x before [y Hy] _ IH].
  - simpl. by rewrite He.
  - rewrite <- app_comm_cons, mapM_cons, Hy. simpl. by rewrite IH.
Qed.

(** X17: the whole listing is built before anything is matched: an entry
    that cannot be read makes the lookup raise that entry's error, even
    when an entry before it has the slug looked up. *)
Theorem get_remote_dataset_broken_entry (self : Client)
    (dataset_identifier : string + DatasetIdentifier) (parsed : DatasetIdentifier)
    (headers : gmap string string) (response : Response)
    (before : list value) (bad : value) (rest : list value) (e : exn) :
  Client.as_identifier parse dataset_identifier = Ok parsed ->
  _get_headers self (di_team_slug (Client.with_default_team self parsed)) = Ok headers ->
  requests (get_request self "/datasets/" headers) = Ok response ->
  status_code response <> 401 ->
  status_code response <> 404 ->
  json response = Some (VList (before ++ bad :: rest)) ->
  Forall (fun entry =>
            exists dataset,
              Client.remote_dataset_of
                self (di_team_slug (Client.with_default_team self parsed)) entry
              = Ok dataset) before ->
  Client.remote_dataset_of
    self (di_team_slug (Client.with_default_team self parsed)) bad = Raise e ->
  get_remote_dataset self dataset_identifier = ([], Raise e).
Proof.
  intros Hp Hh Hr H401 H404 Hj Hbefore Hbad.
  unfold Client.get_remote_dataset. rewrite Hp, bind_lift_ok.
  rewrite (list_remote_datasets_answered self _ headers response _ Hh Hr H401 H404 Hj).
  simpl. by rewrite (mapM_raise _ before bad rest e Hbefore Hbad).
Qed.

Lemma io_then_skip (m : io unit) : (m;; mret tt) = m.
Proof. destruct m as [log [[] | e]]; simpl; by rewrite ?app_nil_r. Qed.

(** [create_dataset] once the request is answered with a status other than
    401. *)
Lemma create_dataset_answered (self : Client) (name : string) (team : value)
    (headers : gmap string string) (response : Response) :
  _get_headers self team = Ok headers ->
  requests (post_request self "/datasets" (VDict {["name" := VStr name]}) headers)
  = Ok response ->
  status_code response <> 401 ->
  create_dataset self name team
  = (((if negb (status_code response =? 200) then
         Client.run_handlers 0 [name_taken; validation_error] response
       else mret tt);;
      Client._decode_response response false)
     ≫= fun dataset => lift (Client.remote_dataset_of self team dataset)).
Proof.
  intros Hh Hr H401. unfold Client.create_dataset.
  rewrite (post_answered requests urljoin repr_other self "/datasets" _ team false
             (Some [name_taken; validation_error]) headers response Hh Hr H401).
  cbv beta iota delta [when from_option id].
  destruct (negb _); [| done]. by rewrite io_then_skip.
Qed.

(** X18: a creation answered with 200 and a body that has the five dataset
    keys gives the dataset of that body, for the team asked for (the default
    team when none is given); no handler is called. *)
Theorem create_dataset_created (self : Client) (name : string) (team : value)
    (headers : gmap string string) (response : Response)
    (body : value) (dataset : Client.RemoteDataset) :
  _get_headers self team = Ok headers ->
  requests (post_request self "/datasets" (VDict {["name" := VStr name]}) headers)
  = Ok response ->
  status_code response = 200 ->
  json response = Some body ->
  Client.remote_dataset_of self team body = Ok dataset ->
  create_dataset self name team = ([], Ok dataset)
  /\ Py.getitem body "slug" = Ok (Client.slug dataset)
  /\ Py.getitem body "id" = Ok (Client.dataset_id dataset)
  /\ Client.team dataset = Py.or_ team (Client.default_team self)
  /\ Client.client dataset = self.
Proof.
  intros Hh Hr H200 Hj Hd.
  assert (H401 : status_code response <> 401) by lia.
  rewrite (create_dataset_answered self name team headers response Hh Hr H401).
  rewrite H200. simpl. rewrite (decode_json response false body Hj). simpl.
  rewrite Hd. split; [done |].
  apply remote_dataset_of_entry in Hd.
  destruct Hd as (_ & Hslug & Hid & _ & _ & Hteam & Hclient). by repeat split.
Qed.

(** X19: on a status other than 200 and 401 with a body that decodes, the
    name-taken handler is called first; when it raises, its error is the
    outcome and the validation handler is not called; when it returns and
    the validation handler raises, that error is the outcome. *)
Theorem create_dataset_handlers (self : Client) (name : string) (team : value)
    (headers : gmap string string) (response : Response) (body : value) (e : exn) :
  _get_headers self team = Ok headers ->
  requests (post_request self "/datasets" (VDict {["name" := VStr name]}) headers)
  = Ok response ->
  status_code response <> 401 ->
  status_code response <> 200 ->
  json response = Some body ->
  (name_taken (status_code response) body = Raise e ->
   create_dataset self name team
   = ([Called 0 (status_code response) body], Raise e)) /\
  (name_taken (status_code response) body = Ok tt ->
   validation_error (status_code response) body = Raise e ->
   create_dataset self name team
   = ([Called 0 (status_code response) body; Called 1 (status_code response) body],
      Raise e)).
Proof.
  intros Hh Hr H401 H200 Hj.
  rewrite (create_dataset_answered self name team headers response Hh Hr H401).
  apply Z.eqb_neq in H200. rewrite H200. simpl.
  unfold Client.call_json. rewrite Hj. simpl. split.
  - by intros ->.
  - intros -> ->. reflexivity.
Qed.

(** X20: an error answer that neither handler rejects is read like a
    created dataset: on a status other than 200 and 401, when both handlers
    return, the outcome is that of building the dataset from the body, so a
    body without [name] raises [KeyError]. *)
Theorem create_dataset_unhandled (self : Client) (name : string) (team : value)
    (headers : gmap string string) (response : Response) (d : gmap string value) :
  _get_headers self team = Ok headers ->
  requests (post_request self "/datasets" (VDict {["name" := VStr name]}) headers)
  = Ok response ->
  status_code response <> 401 ->
  status_code response <> 200 ->
  json response = Some (VDict d) ->
  name_taken (status_code response) (VDict d) = Ok tt ->
  validation_error (status_code response) (VDict d) = Ok tt ->
  d !! "name" = None ->
  create_dataset self name team
  = ([Called 0 (status_code response) (VDict d);
      Called 1 (status_code response) (VDict d)],
     Raise (KeyError "name")).
Proof.
  intros Hh Hr H401 H200 Hj Hn Hv Hname.
  rewrite (create_dataset_answered self name team headers response Hh Hr H401).
  apply Z.eqb_neq in H200. rewrite H200. simpl.
  unfold Client.call_json. rewrite Hj. simpl. rewrite Hn. simpl. rewrite Hv. simpl.
  rewrite (decode_json response false (VDict d) Hj). simpl.
  unfold Client.remote_dataset_of. simpl. by rewrite Hname.
Qed.

End FacadeEdges.

(** ** Bootstraps, local datasets and team defaulting *)

Section Bootstraps.
Context {Config : Type} `{ConfigStore Config}.
Variable requests : Request -> result Response.
Variable urljoin : value -> string -> string.
Variable repr_other : value -> string.
Variable getenv : string -> option string.
Variable home : string.
Variable name_taken : ErrorHandlerType.
Variable validation_error : ErrorHandlerType.
Variable path_exists : string -> bool.
Variable config_load : string -> result Config.
Variable glob_all : string -> list string.
Variable is_dir : string -> bool.
Variable is_project_dir : string -> bool.

Abbreviation Client := (@Client.Client Config).
Abbreviation from_api_key := (Client.from_api_key requests urljoin getenv home).
Abbreviation token_info_request := (Client.token_info_request urljoin getenv).
Abbreviation local := (Client.local home path_exists config_load).
Abbreviation list_local_datasets := (Client.list_local_datasets glob_all is_dir is_project_dir).

Lemma matching_slugs_app (team_id : value) (before rest : list value)
    (slugs : list value) :
  Client.matching_slugs team_id before = Ok slugs ->
  Client.matching_slugs team_id (before ++ rest)
  = (more ← Client.matching_slugs team_id rest; Ok (slugs ++ more)).
Proof.
  revert slugs. induction before as [| team before IH]; intros slugs.
  - intros [= <-]. simpl. by destruct (Client.matching_slugs team_id rest).
  - simpl. destruct (Py.getitem team "id") as [id |]; [| done]. simpl.
    destruct (Py.equal id team_id).
    + destruct (Py.getitem team "slug") as [slug |]; [| done]. simpl.
      destruct (Client.matching_slugs team_id before) as [slugs' |]; [| done].
      simpl. intros [= <-]. rewrite (IH slugs' eq_refl).
      by destruct (Client.matching_slugs team_id rest).
    + intros Hb. by rewrite (IH slugs Hb).
Qed.

(** X21: with several teams in the answer, the first whose id equals the
    selected team's id gives the default team, provided the rest of the list
    can be read; a slug that is empty or [None] leaves the default team to
    the fresh configuration. *)
Theorem from_api_key_first_team (api_key : string) (datasets_dir : option string)
    (response : Response) (data selected_team team_id : value)
    (before : list value) (team : value) (rest : list value)
    (id slug : value) (more : list value) :
  requests (token_info_request api_key) = Ok response ->
  status_code response = 200 ->
  json response = Some data ->
  Py.getitem data "selected_team" = Ok selected_team ->
  Py.getitem selected_team "id" = Ok team_id ->
  Py.getitem data "teams" = Ok (VList (before ++ team :: rest)) ->
  Forall (fun earlier => exists id', Py.getitem earlier "id" = Ok id'
                                     /\ Py.equal id' team_id = false) before ->
  Py.getitem team "id" = Ok id ->
  Py.equal id team_id = true ->
  Py.getitem team "slug" = Ok slug ->
  Client.matching_slugs team_id rest = Ok more ->
  exists client,
    from_api_key api_key datasets_dir = Ok client
    /\ Client.default_team client
       = Py.or_ slug (config_get (Client.config client) "global/default_team")
    /\ (Py.truthy slug = true -> Client.default_team client = slug).
Proof.
  intros Hr Hs Hj Hsel Hid Hteams Hbefore Htid Heq Hslug Hrest.
  rewrite (from_api_key_answered requests urljoin getenv home api_key datasets_dir
             response data selected_team team_id _ Hr Hs Hj Hsel Hid Hteams).
  rewrite (matching_slugs_app team_id before (team :: rest) []
             (matching_slugs_none team_id before Hbefore)).
  simpl. rewrite Htid. simpl. rewrite Heq, Hslug. simpl. rewrite Hrest. simpl.
  eexists. split; [reflexivity |]. split; [reflexivity |].
  simpl. unfold Py.or_. by intros ->.
Qed.

(** X22: a token-info answer with status 200 that cannot be read does not
    raise [InvalidLogin]: a body that does not decode raises [ValueError], a
    body without [selected_team] raises [KeyError], and a team entry whose
    [id] cannot be read raises the error of that read, even after a team
    that matched. *)
Theorem from_api_key_unreadable (api_key : string) (datasets_dir : option string)
    (response : Response) :
  requests (token_info_request api_key) = Ok response ->
  status_code response = 200 ->
  (json response = None ->
   from_api_key api_key datasets_dir = Raise ValueError) /\
  (forall d, json response = Some (VDict d) -> d !! "selected_team" = None ->
   from_api_key api_key datasets_dir = Raise (KeyError "selected_team")) /\
  (forall data selected_team team_id before bad rest slugs e,
     json response = Some data ->
     Py.getitem data "selected_team" = Ok selected_team ->
     Py.getitem selected_team "id" = Ok team_id ->
     Py.getitem data "teams" = Ok (VList (before ++ bad :: rest)) ->
     Client.matching_slugs team_id before = Ok slugs ->
     Py.getitem bad "id" = Raise e ->
     from_api_key api_key datasets_dir = Raise e).
Proof.
  intros Hr Hs. split; [| split].
  - intros Hj. unfold Client.from_api_key. rewrite Hr. simpl. rewrite Hs. simpl.
    unfold Client.call_json. by rewrite Hj.
  - intros d Hj Hd. unfold Client.from_api_key. rewrite Hr. simpl. rewrite Hs. simpl.
    unfold Client.call_json. rewrite Hj. simpl. by rewrite Hd.
  - intros data selected_team team_id before bad rest slugs e Hj Hsel Hid Hteams Hb He.
    rewrite (from_api_key_answered requests urljoin getenv home api_key datasets_dir
               response data selected_team team_id _ Hr Hs Hj Hsel Hid Hteams).
    rewrite (matching_slugs_app team_id before (bad :: rest) slugs Hb).
    simpl. by rewrite He.
Qed.

(** X23: [local] reads [.darwin/config.yaml] under the home directory: when
    that file does not exist it raises [MissingConfig] without loading
    anything; when it exists and loads, the client keeps that configuration,
    takes its URLs from it, and takes the team given, or the configured
    default team when the team given is [None] or empty. *)
Theorem local_bootstrap (team_slug : value) :
  (path_exists (home +:+ "/.darwin/config.yaml") = false ->
   local team_slug = Raise MissingConfig) /\
  (forall config,
     path_exists (home +:+ "/.darwin/config.yaml") = true ->
     config_load (home +:+ "/.darwin/config.yaml") = Ok config ->
     exists client,
       local team_slug = Ok client
       /\ Client.config client = config
       /\ Client.url client = config_get config "global/api_endpoint"
       /\ Client.base_url client = config_get config "global/base_url"
       /\ Client.default_team client
          = (if Py.truthy team_slug then team_slug
             else config_get config "global/default_team")) /\
  (forall e,
     path_exists (home +:+ "/.darwin/config.yaml") = true ->
     config_load (home +:+ "/.darwin/config.yaml") = Raise e ->
     local team_slug = Raise e).
Proof.
  unfold Client.local, Client.from_config. split; [| split].
  - by intros ->.
  - intros config -> ->. simpl. by eexists.
  - intros e -> ->. reflexivity.
Qed.

(** X24: [list_local_datasets] lists, in the order of the directory scan,
    exactly the entries of the team's datasets directory that are
    directories and project directories; a team configuration without
    [datasets_dir] raises [KeyError], and a [datasets_dir] that is not a
    string raises [TypeError]. *)
Theorem list_local_datasets_projects (self : Client) (team : value)
    (team_config : gmap string value) :
  config_get_team (Client.config self) (Py.or_ team (Client.default_team self))
  = Ok team_config ->
  (forall root,
     team_config !! "datasets_dir" = Some (VStr root) ->
     exists found,
       list_local_datasets self team = Ok found
       /\ (forall path, In path found
                        <-> In path (glob_all root)
                            /\ is_dir path = true /\ is_project_dir path = true)
       /\ sublist found (glob_all root)) /\
  (team_config !! "datasets_dir" = None ->
   list_local_datasets self team = Raise (KeyError "datasets_dir")) /\
  (forall v, team_config !! "datasets_dir" = Some v -> (forall s, v <> VStr s) ->
   list_local_datasets self team = Raise TypeError).
Proof.
  intros Ht. unfold Client.list_local_datasets, Client.team_setting.
  rewrite Ht. simpl. split; [| split].
  - intros root ->. simpl. eexists. split; [reflexivity |]. split.
    + intros path. by rewrite List.filter_In, andb_true_iff.
    + induction (glob_all root) as [| path paths IH]; simpl; [constructor |].
      destruct (is_dir path && is_project_dir path); by constructor.
  - by intros ->.
  - intros v -> Hns. simpl. destruct v; try done. by destruct (Hns s).
Qed.

(** X25: giving no team is giving the default team: with a team that is
    [None] or empty, the headers, the three mediator operations, the remote
    and local listings, the datasets directory and the dataset creation are
    those of the same call with the client's default team. *)
Theorem no_team_is_default_team (self : Client) (team : value)
    (endpoint name : string) (payload : value) (raw debug : bool)
    (error_handlers : option (list ErrorHandlerType)) :
  Py.truthy team = false ->
  Client._get_headers repr_other self team
  = Client._get_headers repr_other self (Client.default_team self)
  /\ Client.get requests urljoin repr_other self endpoint team raw debug
     = Client.get requests urljoin repr_other self endpoint
                  (Client.default_team self) raw debug
  /\ Client.put requests urljoin repr_other self endpoint payload team debug
     = Client.put requests urljoin repr_other self endpoint payload
                  (Client.default_team self) debug
  /\ Client.post requests urljoin repr_other self endpoint payload team
                 error_handlers debug
     = Client.post requests urljoin repr_other self endpoint payload
                   (Client.default_team self) error_handlers debug
  /\ Client.list_remote_datasets requests urljoin repr_other self team
     = Client.list_remote_datasets requests urljoin repr_other self
                                   (Client.default_team self)
  /\ Client.create_dataset requests urljoin repr_other name_taken validation_error
                           self name team
     = Client.create_dataset requests urljoin repr_other name_taken validation_error
                             self name (Client.default_team self)
  /\ Client.get_datasets_dir self team
     = Client.get_datasets_dir self (Client.default_team self)
  /\ list_local_datasets self team
     = list_local_datasets self (Client.default_team self).
Proof.
  intros Hfalsy.
  assert (Hor : Py.or_ team (Client.default_team self)
                = Py.or_ (Client.default_team self) (Client.default_team self)).
  { unfold Py.or_. rewrite Hfalsy. by destruct (Py.truthy (Client.default_team self)). }
  assert (Hh : Client._get_headers repr_other self team
               = Client._get_headers repr_other self (Client.default_team self))
    by (unfold Client._get_headers; by rewrite Hor).
  assert (Hd : Client.remote_dataset_of self team
               = Client.remote_dataset_of self (Client.default_team self))
    by (unfold Client.remote_dataset_of; by rewrite Hor).
  assert (Hpost : forall e p hs d,
             Client.post requests urljoin repr_other self e p team hs d
             = Client.post requests urljoin repr_other self e p
                           (Client.default_team self) hs d)
    by (intros; unfold Client.post; by rewrite Hh).
  repeat split.
  - done.
  - unfold Client.get. by rewrite Hh.
  - unfold Client.put. by rewrite Hh.
  - apply Hpost.
  - unfold Client.list_remote_datasets, Client.get. by rewrite Hh, Hd.
  - unfold Client.create_dataset. by rewrite Hpost, Hd.
  - unfold Client.get_datasets_dir. by rewrite Hor.
  - unfold Client.list_local_datasets. by rewrite Hor.
Qed.

End Bootstraps.

(** ** Export formats *)

(** X26: the six format names are pairwise different, so a name stands for
    one exporter only. *)
Theorem supported_formats_unique (exporter : Type)
    (coco cvat dataloop instance_mask pascalvoc semantic_mask : exporter) :
  NoDup (fst <$> Formats.supported_formats exporter coco cvat dataloop
                   instance_mask pascalvoc semantic_mask)
  /\ forall name e1 e2,
       In (name, e1) (Formats.supported_formats exporter coco cvat dataloop
                        instance_mask pascalvoc semantic_mask) ->
       In (name, e2) (Formats.supported_formats exporter coco cvat dataloop
                        instance_mask pascalvoc semantic_mask) ->
       e1 = e2.
Proof.
  split.
  - simpl. apply (bool_decide_unpack _). by vm_compute.
  - unfold Formats.supported_formats. simpl. intros name e1 e2 H1 H2.
    intuition congruence.
Qed.

(** ** The further properties on concrete inputs *)

Lemma parse_json_returns_available_witness :
  Release.available Demo.release_v2 = VBool true
  /\ Release.url Demo.release_v2 <> VNone
  /\ exists n, Release.class_count Demo.release_v2 = VInt n /\ 0 <= n.
Proof.
  destruct (parse_json_returns_available string Demo.strptime
              (VStr "cats") (VStr "acme") Demo.available_payload Demo.release_v2
              parse_json_available_payload)
    as (Ha & _ & _ & _ & Hu & _ & _ & Hc & _).
  by repeat split.
Defined.

Lemma parse_json_timestamp_first_witness :
  Release.parse_json Demo.strptime (VStr "cats") (VStr "acme") VNone = Raise TypeError
  /\ Release.parse_json Demo.strptime (VStr "cats") (VStr "acme") (VDict ∅)
     = Raise (KeyError "inserted_at")
  /\ Release.parse_json Demo.strptime (VStr "cats") (VStr "acme")
                        (VDict {["inserted_at" := VStr EmptyString]})
     = Raise ValueError.
Proof.
  split; [| split].
  - apply (parse_json_timestamp_first string Demo.strptime (VStr "cats") (VStr "acme")
             VNone). discriminate.
  - by apply (parse_json_timestamp_first string Demo.strptime (VStr "cats")
                (VStr "acme") (VDict ∅)) with (d := ∅).
  - by apply (parse_json_timestamp_first string Demo.strptime (VStr "cats")
                (VStr "acme") (VDict {["inserted_at" := VStr EmptyString]}))
      with (s := EmptyString).
Defined.

Lemma identifier_text_injective_witness :
  "acme" = "acme" /\ "cats" = "cats" /\ "v2" = "v2".
Proof.
  apply (identifier_text_injective string Demo.repr_other Demo.release_v2
           Demo.release_v2 "acme" "cats" "v2" "acme" "cats" "v2");
    try reflexivity; simpl; intuition discriminate.
Defined.

(** Without the condition the text is ambiguous. *)
Example identifier_text_ambiguous :
  Release.identifier_text Demo.repr_other
    (Release.set_version
       (Release.mkRelease (VStr "c") (VStr "a/b") VNone VNone EmptyString VNone VNone
                          VNone VNone) (VStr "v"))
  = Release.identifier_text Demo.repr_other
      (Release.set_version
         (Release.mkRelease (VStr "b/c") (VStr "a") VNone VNone EmptyString VNone VNone
                            VNone VNone) (VStr "v")).
Proof. reflexivity. Qed.

Lemma acme_team_config_read :
  config_get_team (Client.config Demo.acme)
                  (Py.or_ VNone (Client.default_team Demo.acme))
  = Ok Demo.acme_team_config.
Proof. vm_compute. reflexivity. Qed.

Lemma get_headers_shape_witness :
  exists headers,
    Client._get_headers Demo.repr_other Demo.acme VNone = Ok headers
    /\ headers !! "Content-Type" = Some "application/json"
    /\ headers !! "Authorization" = Some "ApiKey secret".
Proof.
  destruct (get_headers_shape Demo.repr_other Demo.acme VNone Demo.acme_team_config
              acme_team_config_read) as (headers & Hh & Hc & Ha & _).
  exists headers. split; [done |]. split; [done |].
  by apply (Ha (VStr "secret")).
Defined.

Lemma get_raises_only_witness :
  exists answer,
    snd (Client.get (Demo.answer (Demo.html 502)) Demo.urljoin Demo.repr_other
                    Demo.acme "/datasets/" VNone false false) = Ok answer.
Proof.
  apply (get_raises_only (Demo.answer (Demo.html 502)) Demo.urljoin Demo.repr_other
           Demo.acme "/datasets/" VNone false false Demo.acme_headers (Demo.html 502)
           acme_headers_built eq_refl);
    discriminate.
Defined.

Lemma get_raw_returns_response_witness :
  Client.get (Demo.answer (Demo.html 502)) Demo.urljoin Demo.repr_other
             Demo.acme "/datasets/" VNone true true
  = ([], Ok (Client.Raw (Demo.html 502))).
Proof.
  apply (get_raw_returns_response (Demo.answer (Demo.html 502)) Demo.urljoin
           Demo.repr_other Demo.acme "/datasets/" VNone true Demo.acme_headers
           (Demo.html 502) acme_headers_built eq_refl);
    discriminate.
Defined.

Lemma put_raises_only_witness :
  exists body,
    snd (Client.put (Demo.answer (Demo.html 502)) Demo.urljoin Demo.repr_other
                    Demo.acme "/datasets/1" (VDict ∅) VNone false) = Ok body.
Proof.
  apply (put_raises_only (Demo.answer (Demo.html 502)) Demo.urljoin Demo.repr_other
           Demo.acme "/datasets/1" (VDict ∅) VNone false Demo.acme_headers
           (Demo.html 502) acme_headers_built eq_refl);
    discriminate.
Defined.

Lemma post_raises_only_witness :
  exists body,
    snd (Client.post (Demo.answer (Demo.json_response 200 Demo.rate_limited))
                     Demo.urljoin Demo.repr_other Demo.acme "/datasets" VNone VNone
                     (Some [Demo.name_taken]) true) = Ok body.
Proof.
  apply (post_raises_only (Demo.answer (Demo.json_response 200 Demo.rate_limited))
           Demo.urljoin Demo.repr_other Demo.acme "/datasets" VNone VNone true
           (Some [Demo.name_taken]) Demo.acme_headers
           (Demo.json_response 200 Demo.rate_limited) acme_headers_built eq_refl).
  reflexivity.
Defined.

Lemma json_body_passes_through_witness :
  Client.get (Demo.answer (Demo.json_response 500 Demo.rate_limited)) Demo.urljoin
             Demo.repr_other Demo.acme "/datasets/" VNone false false
  = ([], Ok (Client.Decoded Demo.rate_limited))
  /\ Client.put (Demo.answer (Demo.json_response 500 Demo.rate_limited)) Demo.urljoin
                Demo.repr_other Demo.acme "/datasets/1" (VDict ∅) VNone false
     = ([], Ok Demo.rate_limited).
Proof.
  assert (H401 : status_code (Demo.json_response 500 Demo.rate_limited) <> 401)
    by discriminate.
  split.
  - destruct (json_body_passes_through
                (Demo.answer (Demo.json_response 500 Demo.rate_limited)) Demo.urljoin
                Demo.repr_other Demo.acme "/datasets/" VNone VNone false None
                Demo.acme_headers (Demo.json_response 500 Demo.rate_limited)
                Demo.rate_limited acme_headers_built eq_refl H401) as (Hget & _ & _).
    apply Hget; [reflexivity | discriminate].
  - destruct (json_body_passes_through
                (Demo.answer (Demo.json_response 500 Demo.rate_limited)) Demo.urljoin
                Demo.repr_other Demo.acme "/datasets/1" (VDict ∅) VNone false None
                Demo.acme_headers (Demo.json_response 500 Demo.rate_limited)
                Demo.rate_limited acme_headers_built eq_refl H401) as (_ & Hput & _).
    apply Hput; [reflexivity | discriminate].
Defined.

Lemma put_429_malformed_witness :
  Client.put (Demo.answer (Demo.html 429)) Demo.urljoin Demo.repr_other
             Demo.acme "/datasets/1" (VDict ∅) VNone false
  = ([], Raise ValueError)
  /\ Client.put (Demo.answer (Demo.json_response 429 (VDict ∅))) Demo.urljoin
                Demo.repr_other Demo.acme "/datasets/1" (VDict ∅) VNone false
     = ([], Raise (KeyError "errors")).
Proof.
  split.
  - by apply (put_429_malformed (Demo.answer (Demo.html 429)) Demo.urljoin
                Demo.repr_other Demo.acme "/datasets/1" (VDict ∅) VNone false
                Demo.acme_headers (Demo.html 429) acme_headers_built eq_refl eq_refl).
  - destruct (put_429_malformed (Demo.answer (Demo.json_response 429 (VDict ∅)))
                Demo.urljoin Demo.repr_other Demo.acme "/datasets/1" (VDict ∅) VNone
                false Demo.acme_headers (Demo.json_response 429 (VDict ∅))
                acme_headers_built eq_refl eq_refl) as (_ & Herrors & _).
    by apply (Herrors (VDict ∅)).
Defined.

Lemma post_not_json_raises_witness :
  Client.post (Demo.answer (Demo.html 502)) Demo.urljoin Demo.repr_other
              Demo.acme "/datasets" VNone VNone (Some [Demo.name_taken]) false
  = ([], Raise ValueError).
Proof.
  apply (post_not_json_raises (Demo.answer (Demo.html 502)) Demo.urljoin
           Demo.repr_other Demo.acme "/datasets" VNone VNone false
           (Some [Demo.name_taken]) Demo.acme_headers (Demo.html 502)
           acme_headers_built eq_refl);
    try discriminate; try reflexivity.
  by left.
Defined.

Lemma collaborator_errors_propagate_witness :
  Client.get Demo.offline Demo.urljoin Demo.repr_other Demo.acme "/datasets/" VNone
             false false
  = ([], Raise (External "ConnectionError")).
Proof.
  destruct (collaborator_errors_propagate Demo.offline Demo.urljoin Demo.repr_other
              Demo.acme "/datasets/" VNone VNone false false None
              (External "ConnectionError")) as [_ Htransport].
  by apply (Htransport Demo.acme_headers acme_headers_built).
Defined.

Lemma list_remote_datasets_in_order_witness :
  exists datasets,
    Client.list_remote_datasets (Demo.answer (Demo.json_response 200 Demo.listing))
      Demo.urljoin Demo.repr_other Demo.acme VNone
    = ([], Ok datasets).
Proof.
  assert (H401 : status_code (Demo.json_response 200 Demo.listing) <> 401)
    by discriminate.
  assert (H404 : status_code (Demo.json_response 200 Demo.listing) <> 404)
    by discriminate.
  destruct (list_remote_datasets_in_order
              (Demo.answer (Demo.json_response 200 Demo.listing))
              Demo.urljoin Demo.repr_other Demo.acme VNone Demo.acme_headers
              (Demo.json_response 200 Demo.listing)
              [Demo.summary 1 "Dogs" "dogs"; Demo.summary 2 "Cats" "cats";
               Demo.summary 3 "More cats" "cats"]
              acme_headers_built eq_refl H401 H404 eq_refl) as [_ Hexists].
  apply Hexists.
  repeat (constructor; [eexists; split; [reflexivity |]; repeat split; by eexists |]).
  constructor.
Defined.

Lemma list_remote_datasets_not_json_witness :
  Client.list_remote_datasets (Demo.answer (Demo.html 502)) Demo.urljoin
    Demo.repr_other Demo.acme VNone
  = ([Closed], Raise TypeError).
Proof.
  apply (list_remote_datasets_not_json (Demo.answer (Demo.html 502)) Demo.urljoin
           Demo.repr_other Demo.acme VNone Demo.acme_headers (Demo.html 502)
           acme_headers_built eq_refl);
    try discriminate. reflexivity.
Defined.

Lemma get_remote_dataset_listing_refused_witness :
  Client.get_remote_dataset (Demo.answer (Demo.html 404)) Demo.urljoin Demo.parse_slug
    Demo.repr_other Demo.acme (inl "cats")
  = ([], Raise (NotFound (ResUrl (Demo.urljoin (Client.url Demo.acme) "/datasets/")))).
Proof.
  destruct (get_remote_dataset_listing_refused (Demo.answer (Demo.html 404))
              Demo.urljoin Demo.parse_slug Demo.repr_other Demo.acme (inl "cats")
              (mkDatasetIdentifier VNone (VStr "cats") VNone) Demo.acme_headers
              (Demo.html 404) eq_refl acme_headers_built eq_refl) as [_ H404].
  by apply H404.
Defined.

Lemma cats_found :
  Client.get_remote_dataset (Demo.answer (Demo.json_response 200 Demo.listing))
    Demo.urljoin Demo.parse_slug Demo.repr_other Demo.acme (inl "cats")
  = ([], Ok (Demo.remote 2 "Cats" "cats")).
Proof. vm_compute. reflexivity. Qed.

Lemma get_remote_dataset_sound_witness :
  exists datasets,
    Client.list_remote_datasets (Demo.answer (Demo.json_response 200 Demo.listing))
      Demo.urljoin Demo.repr_other Demo.acme (VStr "acme")
    = ([], Ok datasets)
    /\ In (Demo.remote 2 "Cats" "cats") datasets.
Proof.
  destruct (get_remote_dataset_sound (Demo.answer (Demo.json_response 200 Demo.listing))
              Demo.urljoin Demo.parse_slug Demo.repr_other Demo.acme (inl "cats")
              (mkDatasetIdentifier VNone (VStr "cats") VNone) []
              (Demo.remote 2 "Cats" "cats") eq_refl cats_found)
    as (datasets & Hl & Hin & _).
  by exists datasets.
Defined.

Lemma get_remote_dataset_broken_entry_witness :
  Client.get_remote_dataset
    (Demo.answer (Demo.json_response 200 Demo.broken_listing))
    Demo.urljoin Demo.parse_slug Demo.repr_other Demo.acme (inl "cats")
  = ([], Raise (KeyError "name")).
Proof.
  apply (get_remote_dataset_broken_entry
           (Demo.answer (Demo.json_response 200 Demo.broken_listing))
           Demo.urljoin Demo.parse_slug Demo.repr_other Demo.acme (inl "cats")
           (mkDatasetIdentifier VNone (VStr "cats") VNone) Demo.acme_headers
           (Demo.json_response 200 Demo.broken_listing)
           [Demo.summary 2 "Cats" "cats"] (VDict {["slug" := VStr "dogs"]}) []
           (KeyError "name") eq_refl acme_headers_built eq_refl);
    try discriminate; try reflexivity.
  constructor; [| constructor]. by eexists.
Defined.

Lemma create_dataset_created_witness :
  Client.create_dataset
    (Demo.answer (Demo.json_response 200 (Demo.summary 4 "Birds" "birds")))
    Demo.urljoin Demo.repr_other Demo.name_taken Demo.validation_error
    Demo.acme "Birds" VNone
  = ([], Ok (Demo.remote 4 "Birds" "birds")).
Proof.
  apply (create_dataset_created
           (Demo.answer (Demo.json_response 200 (Demo.summary 4 "Birds" "birds")))
           Demo.urljoin Demo.repr_other Demo.name_taken Demo.validation_error
           Demo.acme "Birds" VNone Demo.acme_headers
           (Demo.json_response 200 (Demo.summary 4 "Birds" "birds"))
           (Demo.summary 4 "Birds" "birds") (Demo.remote 4 "Birds" "birds")
           acme_headers_built eq_refl eq_refl eq_refl).
  reflexivity.
Defined.

Lemma create_dataset_handlers_witness :
  Client.create_dataset
    (Demo.answer (Demo.json_response 422 Demo.rate_limited))
    Demo.urljoin Demo.repr_other Demo.name_taken Demo.validation_error
    Demo.acme "Cats" VNone
  = ([Called 0 422 Demo.rate_limited], Raise NameTaken).
Proof.
  assert (H401 : status_code (Demo.json_response 422 Demo.rate_limited) <> 401)
    by discriminate.
  assert (H200 : status_code (Demo.json_response 422 Demo.rate_limited) <> 200)
    by discriminate.
  destruct (create_dataset_handlers
              (Demo.answer (Demo.json_response 422 Demo.rate_limited))
              Demo.urljoin Demo.repr_other Demo.name_taken Demo.validation_error
              Demo.acme "Cats" VNone Demo.acme_headers
              (Demo.json_response 422 Demo.rate_limited) Demo.rate_limited NameTaken
              acme_headers_built eq_refl H401 H200 eq_refl) as [Hfirst _].
  by apply Hfirst.
Defined.

Lemma create_dataset_unhandled_witness :
  Client.create_dataset
    (Demo.answer (Demo.json_response 500 Demo.rate_limited))
    Demo.urljoin Demo.repr_other Demo.name_taken Demo.validation_error
    Demo.acme "Cats" VNone
  = ([Called 0 500 Demo.rate_limited; Called 1 500 Demo.rate_limited],
     Raise (KeyError "name")).
Proof.
  apply (create_dataset_unhandled
           (Demo.answer (Demo.json_response 500 Demo.rate_limited))
           Demo.urljoin Demo.repr_other Demo.name_taken Demo.validation_error
           Demo.acme "Cats" VNone Demo.acme_headers
           (Demo.json_response 500 Demo.rate_limited)
           {["errors" := VDict {["code" := VStr "RATE_LIMITED"]}]}
           acme_headers_built eq_refl);
    try discriminate; reflexivity.
Defined.

Lemma from_api_key_first_team_witness :
  exists client,
    Client.from_api_key (Demo.answer (Demo.json_response 200 Demo.three_teams))
      Demo.urljoin Demo.no_env "/home/u" "secret" None = Ok client
    /\ Client.default_team client = VStr "acme".
Proof.
  destruct (from_api_key_first_team
              (Demo.answer (Demo.json_response 200 Demo.three_teams))
              Demo.urljoin Demo.no_env "/home/u" "secret" None
              (Demo.json_response 200 Demo.three_teams) Demo.three_teams
              (VDict {["id" := VInt 7]}) (VInt 7)
              [Demo.team_entry 8 "other"] (Demo.team_entry 7 "acme")
              [Demo.team_entry 7 "second"] (VInt 7) (VStr "acme") [VStr "second"]
              eq_refl eq_refl eq_refl eq_refl eq_refl eq_refl)
    as (client & Hc & _ & Hd); try reflexivity.
  - constructor; [| constructor]. exists (VInt 8). by split.
  - exists client. split; [done |]. by apply Hd.
Defined.

Lemma from_api_key_unreadable_witness :
  Client.from_api_key (Demo.answer (Demo.html 200)) Demo.urljoin Demo.no_env
    "/home/u" "secret" None
  = Raise ValueError.
Proof.
  by apply (from_api_key_unreadable (Demo.answer (Demo.html 200)) Demo.urljoin
              Demo.no_env "/home/u" "secret" None (Demo.html 200) eq_refl eq_refl).
Defined.

Lemma local_bootstrap_witness :
  Client.local "/home/u" Demo.no_files Demo.load_nothing (VStr "acme")
  = Raise MissingConfig.
Proof.
  destruct (local_bootstrap "/home/u" Demo.no_files Demo.load_nothing (VStr "acme"))
    as [Hmissing _].
  apply Hmissing. reflexivity.
Defined.

Lemma list_local_datasets_projects_witness :
  exists found,
    Client.list_local_datasets Demo.glob_all Demo.is_dir Demo.is_project_dir
                               Demo.acme VNone = Ok found
    /\ (In "/home/u/.darwin/datasets/cats" found
        <-> In "/home/u/.darwin/datasets/cats" (Demo.glob_all "/home/u/.darwin/datasets")
            /\ Demo.is_dir "/home/u/.darwin/datasets/cats" = true
            /\ Demo.is_project_dir "/home/u/.darwin/datasets/cats" = true).
Proof.
  destruct (list_local_datasets_projects Demo.glob_all Demo.is_dir Demo.is_project_dir
              Demo.acme VNone Demo.acme_team_config acme_team_config_read)
    as [Hlist _].
  destruct (Hlist "/home/u/.darwin/datasets" eq_refl) as (found & Hf & Hin & _).
  exists found. split; [done |]. apply Hin.
Defined.

Example local_projects :
  Client.list_local_datasets Demo.glob_all Demo.is_dir Demo.is_project_dir
                             Demo.acme VNone
  = Ok ["/home/u/.darwin/datasets/cats"].
Proof. vm_compute. reflexivity. Qed.

Lemma no_team_is_default_team_witness :
  Client.get (Demo.answer (Demo.json_response 200 Demo.listing)) Demo.urljoin
             Demo.repr_other Demo.acme "/datasets/" (VStr EmptyString) false false
  = Client.get (Demo.answer (Demo.json_response 200 Demo.listing)) Demo.urljoin
               Demo.repr_other Demo.acme "/datasets/" (VStr "acme") false false.
Proof.
  destruct (no_team_is_default_team
              (Demo.answer (Demo.json_response 200 Demo.listing)) Demo.urljoin
              Demo.repr_other Demo.name_taken Demo.validation_error
              Demo.glob_all Demo.is_dir Demo.is_project_dir
              Demo.acme (VStr EmptyString) "/datasets/" "Cats" VNone false false None
              eq_refl) as (_ & Hget & _).
  exact Hget.
Defined.

Lemma supported_formats_unique_witness :
  2%nat = 2%nat.
Proof.
  destruct (supported_formats_unique nat 1%nat 2%nat 3%nat 4%nat 5%nat 6%nat)
    as [_ Hunique].
  apply (Hunique "cvat"); simpl; tauto.
Defined.
